(** * kernelmethods.sampling: kernel buckets and pairwise similarity

    A shallow embedding of [kernelmethods/sampling.py]: the [KernelBucket]
    class with its [add_parametrized_kernels] method, the factory
    [make_kernel_bucket], and the free functions [ideal_kernel],
    [correlation_km] and [pairwise_similarity].

    Python objects that reach these functions are modelled by the inductive
    [pyobj]; exceptions by [exn] and the sum [result]; the mutable bucket
    and the stream of emitted warnings by explicit state threaded through
    the monad [Py]. *)

From stdpp Require Import base option list strings gmap.
From Stdlib Require Import ZArith Ascii.
From Stdlib Require PrimFloat.

Open Scope string_scope.
Open Scope list_scope.
Open Scope nat_scope.

#[local] Set Warnings "-register-all".

(** ** Exceptions and results *)

Inductive exn : Type :=
  | TypeError
  | ValueError
  | KeyError
  | IndexError
  | AttributeError
  | KernelMethodsException.

Inductive result (A : Type) : Type :=
  | Ok (a : A)
  | Raise (e : exn).

Arguments Ok {A} a.
Arguments Raise {A} e.

(** ** Python values *)

(** Classes that can be passed as [kernel_func].  [ClsKernel] covers the five
    classes imported from [numeric_kernels]; [ClsUserKernel] any further
    class derived from [BaseKernelFunction] (the docstring mentions Chi^2);
    [ClsOther] every class outside that family ([int], [float], ...). *)
Inductive kernel_family : Type :=
  | LinearKernel
  | PolyKernel
  | GaussianKernel
  | LaplacianKernel
  | SigmoidKernel.

Inductive pyclass : Type :=
  | BaseKernelFunction
  | ClsKernel (k : kernel_family)
  | ClsUserKernel (cls_name : string)
  | ClsOther (cls_name : string).

Inductive pyobj : Type :=
  | PyNone
  | PyBool (b : bool)
  | PyInt (z : Z)
  | PyStr (s : string)
  | PyList (l : list pyobj)
  | PyType (c : pyclass).

(** [isinstance(x, type)] *)
Definition isinstance_type (x : pyobj) : bool :=
  match x with PyType _ => true | _ => false end.

(** [issubclass(x, BaseKernelFunction)]; on a non-class Python raises, but the
    source only reaches it behind [isinstance(x, type)]. *)
Definition issubclass_BaseKernelFunction (x : pyobj) : bool :=
  match x with
  | PyType (ClsOther _) => false
  | PyType _ => true
  | _ => false
  end.

(** [isinstance(x, bool)], with the Boolean it holds. *)
Definition as_bool (x : pyobj) : option bool :=
  match x with PyBool b => Some b | _ => None end.

(** Iteration protocol of [for val in values]. *)
Definition iter (x : pyobj) : result (list pyobj) :=
  match x with
  | PyList l => Ok l
  | PyStr s => Ok ((λ c, PyStr (String c EmptyString)) <$> String.list_ascii_of_string s)
  | _ => Raise TypeError
  end.

(** Modelled from the spec: [kernelmethods.utils.is_iterable_but_not_str] is
    not part of the sources.  Section 4.1a: "a single scalar, or a string,
    does not qualify -- at least one value must be present and it must not be
    a bare string". *)
Definition is_iterable_but_not_str (input_obj : pyobj) (min_length : nat) : bool :=
  match input_obj with
  | PyList l => bool_decide (min_length ≤ length l)
  | _ => false
  end.

(** ** Kernel functions, kernel matrices, the bucket *)

(** A kernel-function instance is recorded by the class it was built from and
    the keyword arguments it received; a kernel matrix by its kernel function
    and the [normalized] flag. *)
Record kernel_fn : Type := KF {
  kf_class : pyclass;
  kf_kwargs : gmap string pyobj
}.

Record kernel_matrix : Type := KernelMatrix {
  km_kernel : kernel_fn;
  km_normalized : bool
}.

(** The constructors of [numeric_kernels] and of [base.KernelMatrix] are
    external: whether a call raises, and what, is a parameter of the model. *)
Class KernelLib : Type := {
  kernel_init_raises : pyclass → gmap string pyobj → option exn;
  kernel_matrix_raises : kernel_fn → bool → option exn
}.

(** The parameter grids of [kernelmethods.config]. *)
Class Config : Type := {
  default_degree_values_poly_kernel : pyobj;
  default_sigma_values_gaussian_kernel : pyobj;
  default_gamma_values_laplacian_kernel : pyobj;
  default_gamma_values_sigmoid_kernel : pyobj;
  default_offset_values_sigmoid_kernel : pyobj;
  light_degree_values_poly_kernel : pyobj;
  light_sigma_values_gaussian_kernel : pyobj;
  light_gamma_values_laplacian_kernel : pyobj;
  light_gamma_values_sigmoid_kernel : pyobj;
  light_offset_values_sigmoid_kernel : pyobj
}.

(** Modelled from the spec: the base class [KernelSet] is not part of the
    sources.  Sections 1 and 6: an ordered container with [append], [size]
    and integer indexing; [km_set] is that sequence. *)
Record KernelBucket : Type := mkBucket {
  km_set : list kernel_matrix;
  name : string;
  _norm_kernels : bool;
  _skip_input_checks : bool;
  _num_samples : option nat
}.

Definition size (kb : KernelBucket) : nat := length (km_set kb).

(** [k_bucket[idx]] *)
Definition getitem (kb : KernelBucket) (idx : nat) : result kernel_matrix :=
  match km_set kb !! idx with
  | Some km => Ok km
  | None => Raise IndexError
  end.

(** ** State and exceptions

    A Python function that mutates state and may raise is a function from
    the state before to the state after and either a value or the exception
    raised. *)

Definition Py (S A : Type) : Type := S → S * result A.

Definition ret {S A} (a : A) : Py S A := λ s, (s, Ok a).

Definition raise {S A} (e : exn) : Py S A := λ s, (s, Raise e).

Definition bind {S A B} (m : Py S A) (k : A → Py S B) : Py S B :=
  λ s, match m s with
       | (s', Ok a) => k a s'
       | (s', Raise e) => (s', Raise e)
       end.

Notation "'let!' x ':=' m 'in' k" := (bind m (λ x, k))
  (at level 10, x name, m at level 100, k at level 200, only parsing).
Notation "m >> k" := (bind m (λ _, k))
  (at level 100, k at level 200, right associativity, only parsing).

(** [try: body / except: handler] with a bare [except]: every exception is
    caught; what the body did to the state before raising stays done. *)
Definition try_except {S A} (body : Py S A) (handler : exn → Py S A) : Py S A :=
  λ s, match body s with
       | (s', Ok a) => (s', Ok a)
       | (s', Raise e) => handler e s'
       end.

Definition lift {S A} (r : result A) : Py S A := λ s, (s, r).

(** [for x in xs: body x] *)
Fixpoint for_each {S A} (xs : list A) (body : A → Py S unit) : Py S unit :=
  match xs with
  | [] => ret tt
  | x :: xs' => body x >> for_each xs' body
  end.

(** [for x in xs: acc = body x acc], for a loop that updates one object. *)
Fixpoint for_acc {S A B} (xs : list A) (acc : B) (body : A → B → Py S B) : Py S B :=
  match xs with
  | [] => ret acc
  | x :: xs' => let! acc' := body x acc in for_acc xs' acc' body
  end.

(** [range(start, stop)] *)
Definition range (start stop : nat) : list nat := seq start (stop - start).

(** ** Warnings and the state of a bucket method *)

Inductive warning : Type :=
  | UnableToAdd (kernel_func : pyobj) (param : string) (val : pyobj)
  | AlreadyABucket.

(** What a method call can change: the bucket it is bound to and the
    warnings emitted so far (oldest first). *)
Record world : Type := mkWorld {
  self : KernelBucket;
  warnings : list warning
}.

Definition warn (x : warning) : Py world unit :=
  λ w, (mkWorld (self w) (warnings w ++ [x]), Ok tt).

(** Modelled from the spec: [KernelSet.append] is not part of the sources.
    Section 3: the sample size is unset until the bucket is attached to data,
    and "once set, all subsequently added kernel matrices must be consistent
    with it".  A kernel matrix that has just been built is attached to no
    sample, so [self.append(km)] adds it at the end of an unattached bucket
    and raises on an attached one. *)
Definition append (km : kernel_matrix) : Py world unit :=
  λ w, let kb := self w in
       match _num_samples kb with
       | Some _ => (w, Raise KernelMethodsException)
       | None =>
           (mkWorld (mkBucket (km_set kb ++ [km]) (name kb) (_norm_kernels kb)
                              (_skip_input_checks kb) (_num_samples kb))
                    (warnings w), Ok tt)
       end.

Definition get_self : Py world KernelBucket := λ w, (w, Ok (self w)).

(** ** KernelBucket *)

Section bucket.
Context `{KernelLib}.

(** Calling the class with the keyword arguments of [param_dict]. *)
Definition call_kernel_func (kernel_func : pyobj) (param_dict : gmap string pyobj)
  : Py world kernel_fn :=
  match kernel_func with
  | PyType c =>
      match kernel_init_raises c param_dict with
      | Some e => raise e
      | None => ret (KF c param_dict)
      end
  | _ => raise TypeError
  end.

(** [KernelMatrix(kf, normalized=normalized)] *)
Definition new_KernelMatrix (kf : kernel_fn) (normalized : bool) : Py world kernel_matrix :=
  match kernel_matrix_raises kf normalized with
  | Some e => raise e
  | None => ret (KernelMatrix kf normalized)
  end.

(** The dict literal [{param: val, 'skip_input_checks': flag}]: the later key
    wins when [param] is itself ['skip_input_checks']. *)
Definition make_param_dict (param : string) (val : pyobj) (flag : bool)
  : gmap string pyobj :=
  <["skip_input_checks" := PyBool flag]> {[ param := val ]}.

Definition add_parametrized_kernels
  (kernel_func : pyobj) (param : string) (values : pyobj) : Py world unit :=
  if negb (isinstance_type kernel_func)
     || negb (issubclass_BaseKernelFunction kernel_func)
  then raise KernelMethodsException
  else
    match values with
    | PyNone => ret tt
    | _ =>
        if negb (is_iterable_but_not_str values 1) then raise ValueError
        else
          let! vals := lift (iter values) in
          for_each vals (λ val,
            try_except
              (let! kb := get_self in
               let param_dict := make_param_dict param val (_skip_input_checks kb) in
               let! kf := call_kernel_func kernel_func param_dict in
               let! km := new_KernelMatrix kf (_norm_kernels kb) in
               append km)
              (λ _, warn (UnableToAdd kernel_func param val)))
    end.

(** The linear kernel every bucket starts with:
    [KernelMatrix(LinearKernel(), normalized=self._norm_kernels)]. *)
Definition linear_km (normalized : bool) : kernel_matrix :=
  KernelMatrix (KF (ClsKernel LinearKernel) ∅) normalized.

(** [KernelBucket.__init__]: the constructor call as a whole, run against the
    warnings emitted so far; it yields the new bucket or the exception. *)
Definition KernelBucket_init
  (poly_degree_values rbf_sigma_values laplace_gamma_values
   sigmoid_gamma_values sigmoid_offset_values : pyobj)
  (name : string) (normalize_kernels skip_input_checks : pyobj)
  (ws : list warning) : list warning * result KernelBucket :=
  match as_bool normalize_kernels with
  | None => (ws, Raise TypeError)
  | Some norm =>
      match as_bool skip_input_checks with
      | None => (ws, Raise TypeError)
      | Some skip =>
          let init_kset := [linear_km norm] in
          let self0 := mkBucket init_kset name norm skip None in
          let body :=
            add_parametrized_kernels (PyType (ClsKernel PolyKernel)) "degree"
                                     poly_degree_values >>
            add_parametrized_kernels (PyType (ClsKernel GaussianKernel)) "sigma"
                                     rbf_sigma_values >>
            add_parametrized_kernels (PyType (ClsKernel LaplacianKernel)) "gamma"
                                     laplace_gamma_values >>
            add_parametrized_kernels (PyType (ClsKernel SigmoidKernel)) "gamma"
                                     sigmoid_gamma_values >>
            add_parametrized_kernels (PyType (ClsKernel SigmoidKernel)) "offset"
                                     sigmoid_offset_values in
          match body (mkWorld self0 ws) with
          | (w, Ok _) => (warnings w, Ok (self w))
          | (w, Raise e) => (warnings w, Raise e)
          end
      end
  end.


(** [str.lower()] on the ASCII range; a string is a sequence of bytes here,
    and bytes outside [A-Z] are left as they are. *)
Definition lower_ascii (c : ascii) : ascii :=
  let n := nat_of_ascii c in
  if (65 <=? n)%nat && (n <=? 90)%nat then ascii_of_nat (n + 32) else c.

Fixpoint lower (s : string) : string :=
  match s with
  | EmptyString => EmptyString
  | String c s' => String (lower_ascii c) (lower s')
  end.

(** The first argument of [make_kernel_bucket]: a bucket or kernel set that
    already exists, or any other object (a strategy name, when a string). *)
Inductive strategy_arg : Type :=
  | StrategyBucket (kb : KernelBucket)
  | StrategyObj (o : pyobj).

Context `{Config}.

Definition make_kernel_bucket
  (strategy : strategy_arg) (normalize_kernels skip_input_checks : pyobj)
  (ws : list warning) : list warning * result KernelBucket :=
  match strategy with
  | StrategyBucket kb => (ws ++ [AlreadyABucket], Ok kb)
  | StrategyObj (PyStr strategy) =>
      let strategy := lower strategy in
      if String.eqb strategy "exhaustive" then
        KernelBucket_init default_degree_values_poly_kernel
                          default_sigma_values_gaussian_kernel
                          default_gamma_values_laplacian_kernel
                          default_gamma_values_sigmoid_kernel
                          default_offset_values_sigmoid_kernel
                          "KBucketExhaustive" normalize_kernels skip_input_checks ws
      else if String.eqb strategy "light" then
        KernelBucket_init light_degree_values_poly_kernel
                          light_sigma_values_gaussian_kernel
                          light_gamma_values_laplacian_kernel
                          light_gamma_values_sigmoid_kernel
                          light_offset_values_sigmoid_kernel
                          "KBucketLight" normalize_kernels skip_input_checks ws
      else if String.eqb strategy "linear_only" then
        KernelBucket_init PyNone PyNone PyNone PyNone PyNone
                          "KBucketLight" normalize_kernels skip_input_checks ws
      else (ws, Raise ValueError)
  | StrategyObj _ => (ws, Raise AttributeError)
  end.

End bucket.

(** ** numpy arrays

    A two-dimensional [ndarray] is a shape, strides and a buffer; the cell
    (i, j) lives at offset [i * stride0 + j * stride1].  Transposition is a
    view: it swaps shape and strides and shares the buffer. *)

Record ndarray (A : Type) : Type := mkArray {
  shape : nat * nat;
  strides : nat * nat;
  buffer : list A
}.

Arguments mkArray {A} shape strides buffer.
Arguments shape {A} _.
Arguments strides {A} _.
Arguments buffer {A} _.

Section arrays.
Context {A : Type}.

(** [np.full(shp, fill_value)] *)
Definition np_full (shp : nat * nat) (fill_value : A) : ndarray A :=
  mkArray shp (shp.2, 1) (replicate (shp.1 * shp.2) fill_value).

Definition offset (a : ndarray A) (i j : nat) : nat :=
  i * (strides a).1 + j * (strides a).2.

Definition in_shape (a : ndarray A) (i j : nat) : bool :=
  bool_decide (i < (shape a).1) && bool_decide (j < (shape a).2).

(** [a[i, j]] *)
Definition get_cell (a : ndarray A) (i j : nat) : result A :=
  if in_shape a i j then
    match buffer a !! offset a i j with
    | Some v => Ok v
    | None => Raise IndexError
    end
  else Raise IndexError.

(** [a[i, j] = v] *)
Definition set_cell (a : ndarray A) (i j : nat) (v : A) : result (ndarray A) :=
  if in_shape a i j && bool_decide (offset a i j < length (buffer a)) then
    Ok (mkArray (shape a) (strides a) (<[offset a i j := v]> (buffer a)))
  else Raise IndexError.

(** [a.T] *)
Definition transpose (a : ndarray A) : ndarray A :=
  mkArray ((shape a).2, (shape a).1) ((strides a).2, (strides a).1) (buffer a).

(** [np.tril_indices(n)]: the cells on and below the diagonal, row by row. *)
Definition tril_indices (n : nat) : list (nat * nat) :=
  i ← seq 0 n; (λ j, (i, j)) <$> seq 0 (S i).

(** [a[idx]] for a pair of index arrays: a fresh one-dimensional array. *)
Fixpoint take_cells (a : ndarray A) (idx : list (nat * nat)) : result (list A) :=
  match idx with
  | [] => Ok []
  | (i, j) :: idx' =>
      match get_cell a i j with
      | Raise e => Raise e
      | Ok v =>
          match take_cells a idx' with
          | Raise e => Raise e
          | Ok vs => Ok (v :: vs)
          end
      end
  end.

(** [a[idx] = vals] for a pair of index arrays and as many values. *)
Fixpoint put_cells (a : ndarray A) (idx : list (nat * nat)) (vals : list A)
  : result (ndarray A) :=
  match idx, vals with
  | [], [] => Ok a
  | (i, j) :: idx', v :: vals' =>
      match set_cell a i j v with
      | Raise e => Raise e
      | Ok a' => put_cells a' idx' vals'
      end
  | _, _ => Raise ValueError
  end.

(** [a.ravel()]: the cells in row-major order. *)
Definition ravel (a : ndarray A) : list A :=
  i ← seq 0 (shape a).1; j ← seq 0 (shape a).2;
  option_list (buffer a !! offset a i j).

(** [a.tolist()] *)
Definition tolist (a : ndarray A) : list (list A) :=
  (λ i, j ← seq 0 (shape a).2; option_list (buffer a !! offset a i j))
    <$> seq 0 (shape a).1.

End arrays.

(** ** Similarity engine *)

(** The element type of a numeric array with the arithmetic [dot] uses. *)
Class Dtype (T : Type) : Type := {
  dzero : T;
  dadd : T → T → T;
  dmul : T → T → T
}.

Definition Z_dtype : Dtype Z := {| dzero := 0%Z; dadd := Z.add; dmul := Z.mul |}.

(** All results, or the first exception. *)
Fixpoint sequence {A} (rs : list (result A)) : result (list A) :=
  match rs with
  | [] => Ok []
  | Raise e :: _ => Raise e
  | Ok a :: rs' =>
      match sequence rs' with
      | Ok l => Ok (a :: l)
      | Raise e => Raise e
      end
  end.

Section ideal.
Context {T : Type} `{Dtype T}.

(** [np.array(targets).reshape((-1, 1))]: one column over the same buffer. *)
Definition reshape_column (targets : list T) : ndarray T :=
  mkArray (length targets, 1) (1, 1) targets.

(** The cell (i, j) of a matrix product: the sum over k of a[i,k] * b[k,j],
    accumulated from zero. *)
Definition dot_cell (a b : ndarray T) (i j : nat) : result T :=
  foldl (λ acc k,
           match acc, get_cell a i k, get_cell b k j with
           | Ok s, Ok x, Ok y => Ok (dadd s (dmul x y))
           | Raise e, _, _ => Raise e
           | _, Raise e, _ => Raise e
           | _, _, Raise e => Raise e
           end)
        (Ok dzero) (seq 0 (shape a).2).

(** [a.dot(b)] for two-dimensional arrays: a fresh row-major array. *)
Definition dot (a b : ndarray T) : result (ndarray T) :=
  if bool_decide ((shape a).2 = (shape b).1) then
    match sequence (i ← seq 0 (shape a).1;
                    (λ j, dot_cell a b i j) <$> seq 0 (shape b).2) with
    | Ok buf => Ok (mkArray ((shape a).1, (shape b).2) ((shape b).2, 1) buf)
    | Raise e => Raise e
    end
  else Raise ValueError.

Definition ideal_kernel (targets : list T) : result (ndarray T) :=
  let targets := reshape_column targets in
  dot targets (transpose targets).

End ideal.

(** The numeric collaborators of the similarity engine: scipy's [pearsonr],
    [operations.alignment_centered] with its [value_if_zero_division]
    argument, the constants [np.nan] and [0.0], and the dense matrix [.full]
    of a kernel matrix attached to the sample. *)
Class Numerics (V : Type) : Type := {
  nan : V;
  float_zero : V;
  pearsonr : list V → list V → V * V;
  alignment_centered : ndarray V → ndarray V → V → V;
  full : kernel_matrix → ndarray V
}.

Section similarity.
Context {V : Type} `{Numerics V}.

Definition correlation_km (k1 k2 : ndarray V) : V :=
  let '(corr_coef, p_val) := pearsonr (ravel k1) (ravel k2) in
  corr_coef.

(** A metric evaluation: the call is recorded, in order, with its arguments. *)
Definition call_log : Type := list (ndarray V * ndarray V).

Definition call_metric (estimator : ndarray V → ndarray V → V)
  (k1 k2 : ndarray V) : Py call_log V :=
  λ log, (log ++ [(k1, k2)], Ok (estimator k1 k2)).

(** [d[key]] on a dict *)
Definition dict_getitem {X} (d : gmap string X) (key : string) : result X :=
  match d !! key with
  | Some x => Ok x
  | None => Raise KeyError
  end.

Definition pairwise_similarity (k_bucket : KernelBucket) (metric : string)
  : Py call_log (ndarray V) :=
  let metric_func : gmap string (ndarray V → ndarray V → V) :=
    <["align" := λ k1 k2, alignment_centered k1 k2 float_zero]>
      {[ "corr" := correlation_km ]} in
  let num_kernels := size k_bucket in
  let! estimator := lift (dict_getitem metric_func metric) in
  let pairwise_metric := np_full (size k_bucket, size k_bucket) nan in
  let! pairwise_metric :=
    for_acc (range 0 num_kernels) pairwise_metric (λ idx_one pairwise_metric,
      for_acc (range idx_one num_kernels) pairwise_metric (λ idx_two pairwise_metric,
        let! km_one := lift (getitem k_bucket idx_one) in
        let! km_two := lift (getitem k_bucket idx_two) in
        let! v := call_metric estimator (full km_one) (full km_two) in
        lift (set_cell pairwise_metric idx_one idx_two v))) in
  let idx_lower_tri := tril_indices num_kernels in
  let! mirrored := lift (take_cells (transpose pairwise_metric) idx_lower_tri) in
  let! pairwise_metric := lift (put_cells pairwise_metric idx_lower_tri mirrored) in
  ret pairwise_metric.

End similarity.

(** [LookupError] and its subclasses. *)
Definition is_LookupError (e : exn) : bool :=
  match e with
  | KeyError | IndexError => true
  | _ => false
  end.

(** ** Outcome of one parameter value

    What the body of the [for val in values] loop does with one value is
    decided by the two external constructors. *)

Section per_value.
Context `{KernelLib}.

(** Does building the kernel function or wrapping it raise for [val]? *)
Definition value_raises (c : pyclass) (param : string) (skip norm : bool)
  (val : pyobj) : bool :=
  let param_dict := make_param_dict param val skip in
  match kernel_init_raises c param_dict with
  | Some _ => true
  | None =>
      match kernel_matrix_raises (KF c param_dict) norm with
      | Some _ => true
      | None => false
      end
  end.

(** The entry appended for [val] when nothing raises. *)
Definition entry_for (c : pyclass) (param : string) (skip norm : bool)
  (val : pyobj) : kernel_matrix :=
  KernelMatrix (KF c (make_param_dict param val skip)) norm.

(** Is the bucket attached to a sample? *)
Definition attached (kb : KernelBucket) : bool :=
  match _num_samples kb with Some _ => true | None => false end.

(** Is [val] skipped on the bucket [kb]: does building the kernel function,
    wrapping it, or appending the kernel matrix to [kb] raise? *)
Definition value_skipped (c : pyclass) (param : string) (kb : KernelBucket)
  (val : pyobj) : bool :=
  value_raises c param (_skip_input_checks kb) (_norm_kernels kb) val
  || attached kb.

End per_value.

(** The bucket with further entries at its end. *)
Definition extend (kb : KernelBucket) (kms : list kernel_matrix) : KernelBucket :=
  mkBucket (km_set kb ++ kms) (name kb) (_norm_kernels kb)
           (_skip_input_checks kb) (_num_samples kb).

(** A values argument that the constructor accepts: absent, or a list with
    at least one element. *)
Definition accepted_values (values : pyobj) : Prop :=
  values = PyNone ∨ ∃ vals, values = PyList vals ∧ vals ≠ [].

(** ** Concrete collaborators, to run the model on examples *)

(** A kernel library in which a [degree] must be a positive integer and
    everything else is accepted. *)
Definition sample_lib : KernelLib := {|
  kernel_init_raises := λ c kwargs,
    match kwargs !! "degree" with
    | Some (PyInt z) => if (z <? 1)%Z then Some ValueError else None
    | Some _ => Some TypeError
    | None => None
    end;
  kernel_matrix_raises := λ _ _, None
|}.

Definition sample_config : Config := {|
  default_degree_values_poly_kernel := PyList [PyInt 2; PyInt 3; PyInt 4];
  default_sigma_values_gaussian_kernel := PyList [PyInt 1; PyInt 2; PyInt 4];
  default_gamma_values_laplacian_kernel := PyList [PyInt 1; PyInt 2];
  default_gamma_values_sigmoid_kernel := PyList [PyInt 1; PyInt 2];
  default_offset_values_sigmoid_kernel := PyList [PyInt 0; PyInt 1];
  light_degree_values_poly_kernel := PyList [PyInt 2];
  light_sigma_values_gaussian_kernel := PyList [PyInt 1];
  light_gamma_values_laplacian_kernel := PyList [PyInt 1];
  light_gamma_values_sigmoid_kernel := PyList [PyInt 1];
  light_offset_values_sigmoid_kernel := PyList [PyInt 1]
|}.

Definition sample_bucket : KernelBucket :=
  mkBucket [linear_km true] "KernelBucket" true false None.

Definition sample_world : world := mkWorld sample_bucket [].

(** ** Vocabulary for the similarity matrix *)

(** A freshly allocated n-by-n array: row-major, contiguous. *)
Definition square {A} (a : ndarray A) (n : nat) : Prop :=
  shape a = (n, n) ∧ strides a = (n, 1) ∧ length (buffer a) = n * n.

(** The index pairs the two nested loops of [pairwise_similarity] visit, in
    the order they visit them. *)
Definition upper_pairs (n : nat) : list (nat * nat) :=
  i ← range 0 n; (λ j, (i, j)) <$> range i n.

Section similarity_vocabulary.
Context {V : Type} `{Numerics V}.

(** [k_bucket[idx].full], for an index in range. *)
Definition full_at (kb : KernelBucket) (idx : nat) : ndarray V :=
  from_option full (np_full (0, 0) nan) (km_set kb !! idx).

(** The two entries of the dict [metric_func]. *)
Definition align_metric (k1 k2 : ndarray V) : V :=
  alignment_centered k1 k2 float_zero.

Definition metric_of (metric : string) : option (ndarray V → ndarray V → V) :=
  if String.eqb metric "corr" then Some correlation_km
  else if String.eqb metric "align" then Some align_metric
  else None.

End similarity_vocabulary.

(** Integer-valued stand-ins for the numeric collaborators: every kernel
    matrix is 1-by-1, holding the number of keyword arguments of its kernel;
    the correlation is the product of the first cells, the alignment their
    sum. *)
Definition sample_numerics : Numerics Z := {|
  nan := (-1)%Z;
  float_zero := 0%Z;
  pearsonr := λ xs ys, ((default 0 (head xs) * default 0 (head ys))%Z, 0%Z);
  alignment_centered := λ k1 k2 fallback,
    (default fallback (head (buffer k1)) + default fallback (head (buffer k2)))%Z;
  full := λ km, mkArray (1, 1) (1, 1) [Z.of_nat (base.size (kf_kwargs (km_kernel km)))]
|}.

Definition sample_bucket3 : KernelBucket :=
  mkBucket [linear_km true;
            entry_for (ClsKernel PolyKernel) "degree" false true (PyInt 2);
            entry_for (ClsKernel GaussianKernel) "skip_input_checks" false true (PyInt 1)]
           "KernelBucket" true false None.

(** ** Vocabulary for whole buckets *)

(** The Boolean form of [accepted_values]. *)
Definition accepts (values : pyobj) : bool :=
  match values with
  | PyNone => true
  | PyList (_ :: _) => true
  | _ => false
  end.

(** The values an accepted argument is iterated over. *)
Definition values_of (values : pyobj) : list pyobj :=
  match values with
  | PyList vals => vals
  | _ => []
  end.

Section family.
Context `{KernelLib}.

(** The entries one kernel family contributes, and the warnings it causes. *)
Definition family_entries (c : pyclass) (param : string) (skip norm : bool)
  (values : pyobj) : list kernel_matrix :=
  entry_for c param skip norm
    <$> List.filter (λ v, negb (value_raises c param skip norm v)) (values_of values).

Definition family_warnings (c : pyclass) (param : string) (skip norm : bool)
  (values : pyobj) : list warning :=
  UnableToAdd (PyType c) param
    <$> List.filter (value_raises c param skip norm) (values_of values).

End family.

(** The outcome of a call that can only fail with the value error. *)
Definition outcome_of (accepted : bool) : result unit :=
  if accepted then Ok tt else Raise ValueError.

(** The three strategy names of [make_kernel_bucket]. *)
Definition known_strategy (strategy : string) : bool :=
  String.eqb strategy "exhaustive" || String.eqb strategy "light"
  || String.eqb strategy "linear_only".

(** A row-major array that owns its whole buffer. *)
Definition contiguous {A} (a : ndarray A) : Prop :=
  strides a = ((shape a).2, 1) ∧ length (buffer a) = (shape a).1 * (shape a).2.

(** Class labels of a two-class problem. *)
Definition binary_labels (targets : list Z) : Prop :=
  ∀ t, t ∈ targets → t = 1%Z ∨ t = (-1)%Z.

(** A bucket that has been attached to a sample of four points. *)
Definition attached_world : world :=
  mkWorld (mkBucket [linear_km true] "KernelBucket" true false (Some 4)) [].

(** ** Comparing matrix cells

    The comparison [==] of the element type of an array together with its
    test for not-a-number: a value compares equal to itself unless it is not
    a number. *)
Class FloatEq (V : Type) : Type := {
  float_eqb : V → V → bool;
  float_is_nan : V → bool;
  float_eqb_refl : ∀ v, float_is_nan v = false → float_eqb v v = true
}.

(** Integers: every value is a number. *)
Definition integer_eq : FloatEq Z := {|
  float_eqb := Z.eqb;
  float_is_nan := λ _, false;
  float_eqb_refl := λ v _, Z.eqb_refl v
|}.

(** Binary64 numbers with the comparison of IEEE 754. *)
Definition binary64_eq : FloatEq PrimFloat.float := {|
  float_eqb := PrimFloat.eqb;
  float_is_nan := PrimFloat.is_nan;
  float_eqb_refl := λ v Hv, proj1 (negb_false_iff (PrimFloat.eqb v v)) Hv
|}.

(** The sum of binary64 numbers, accumulated from zero. *)
Definition fsum (xs : list PrimFloat.float) : PrimFloat.float :=
  foldl PrimFloat.add PrimFloat.zero xs.

Definition fmean (xs : list PrimFloat.float) : PrimFloat.float :=
  PrimFloat.div (fsum xs) (fsum ((λ _, PrimFloat.one) <$> xs)).

(** The product-moment correlation coefficient as scipy computes it: both
    sequences are centred and scaled to unit norm, the coefficient is their
    dot product.  A constant sequence has norm zero, and 0/0 is not a
    number. *)
Definition pearson_coefficient (xs ys : list PrimFloat.float) : PrimFloat.float :=
  let xm := (λ x, PrimFloat.sub x (fmean xs)) <$> xs in
  let ym := (λ y, PrimFloat.sub y (fmean ys)) <$> ys in
  let normxm := PrimFloat.sqrt (fsum ((λ x, PrimFloat.mul x x) <$> xm)) in
  let normym := PrimFloat.sqrt (fsum ((λ y, PrimFloat.mul y y) <$> ym)) in
  fsum (zip_with PrimFloat.mul ((λ x, PrimFloat.div x normxm) <$> xm)
                               ((λ y, PrimFloat.div y normym) <$> ym)).

(** The cosine of two matrices read as vectors, with the fallback value when
    a norm is zero: a stand-in for [alignment_centered]. *)
Definition cosine_or (k1 k2 : ndarray PrimFloat.float) (fallback : PrimFloat.float)
  : PrimFloat.float :=
  let norm := λ xs, PrimFloat.sqrt (fsum ((λ x, PrimFloat.mul x x) <$> xs)) in
  let denominator := PrimFloat.mul (norm (ravel k1)) (norm (ravel k2)) in
  if PrimFloat.eqb denominator PrimFloat.zero then fallback
  else PrimFloat.div (fsum (zip_with PrimFloat.mul (ravel k1) (ravel k2))) denominator.

(** Binary64 collaborators.  Every kernel matrix is evaluated on a sample of
    two equal points, so that its dense matrix is constant: 2-by-2, all ones
    (the normalized linear kernel of such a sample). *)
Definition binary64_numerics : Numerics PrimFloat.float := {|
  nan := PrimFloat.nan;
  float_zero := PrimFloat.zero;
  pearsonr := λ xs ys, (pearson_coefficient xs ys, PrimFloat.nan);
  alignment_centered := cosine_or;
  full := λ _, mkArray (2, 2) (2, 1)
                 [PrimFloat.one; PrimFloat.one; PrimFloat.one; PrimFloat.one]
|}.

(** * Properties of the bucket *)

Section bucket_facts.
Context `{KernelLib}.

(** An argument that passes the check at the head of
    [add_parametrized_kernels] is a class. *)
Lemma valid_kernel_func_inv (kernel_func : pyobj) :
  issubclass_BaseKernelFunction kernel_func = true →
  ∃ c, kernel_func = PyType c.
Proof. destruct kernel_func; simpl; try discriminate. eauto. Qed.

Lemma invalid_kernel_func_raises kernel_func param values w :
  isinstance_type kernel_func && issubclass_BaseKernelFunction kernel_func = false →
  add_parametrized_kernels kernel_func param values w
  = (w, Raise KernelMethodsException).
Proof.
  intros Hbad. unfold add_parametrized_kernels.
  destruct (isinstance_type kernel_func), (issubclass_BaseKernelFunction kernel_func);
    simpl in *; try discriminate; reflexivity.
Qed.

Lemma world_eta w : mkWorld (self w) (warnings w) = w.
Proof. by destruct w. Qed.

Lemma extend_nil kb : extend kb [] = kb.
Proof. destruct kb. unfold extend. simpl. by rewrite app_nil_r. Qed.

Lemma extend_app kb l1 l2 : extend (extend kb l1) l2 = extend kb (l1 ++ l2).
Proof. unfold extend. simpl. by rewrite <- app_assoc. Qed.

(** One round of the loop: either one entry more, or one warning more. *)
Lemma loop_body_step c param val w :
  try_except
    (let! kb := get_self in
     let param_dict := make_param_dict param val (_skip_input_checks kb) in
     let! kf := call_kernel_func (PyType c) param_dict in
     let! km := new_KernelMatrix kf (_norm_kernels kb) in
     append km)
    (λ _, warn (UnableToAdd (PyType c) param val)) w
  = if value_skipped c param (self w) val
    then (mkWorld (self w) (warnings w ++ [UnableToAdd (PyType c) param val]), Ok tt)
    else (mkWorld (extend (self w)
                     [entry_for c param (_skip_input_checks (self w))
                                (_norm_kernels (self w)) val])
                  (warnings w), Ok tt).
Proof.
  unfold try_except, bind, get_self, call_kernel_func, new_KernelMatrix,
    value_skipped, value_raises, attached, entry_for, append, warn, raise, ret;
    simpl.
  destruct (kernel_init_raises c _); [reflexivity|].
  destruct (kernel_matrix_raises _ _); [reflexivity|].
  unfold extend. destruct (_num_samples (self w)); reflexivity.
Qed.

Lemma value_skipped_extend c param kb kms val :
  value_skipped c param (extend kb kms) val = value_skipped c param kb val.
Proof. done. Qed.

(** The whole loop: the entries of the values that are not skipped are
    appended in order, the warnings of the others are emitted in order. *)
Lemma loop_spec_skipped c param vals : ∀ w,
  for_each vals (λ val,
    try_except
      (let! kb := get_self in
       let param_dict := make_param_dict param val (_skip_input_checks kb) in
       let! kf := call_kernel_func (PyType c) param_dict in
       let! km := new_KernelMatrix kf (_norm_kernels kb) in
       append km)
      (λ _, warn (UnableToAdd (PyType c) param val))) w
  = (mkWorld
       (extend (self w)
          (entry_for c param (_skip_input_checks (self w)) (_norm_kernels (self w))
             <$> List.filter (λ v, negb (value_skipped c param (self w) v)) vals))
       (warnings w
          ++ (UnableToAdd (PyType c) param
                <$> List.filter (value_skipped c param (self w)) vals)),
     Ok tt).
Proof.
  induction vals as [|val vals IH]; intros w.
  - simpl. unfold ret. rewrite extend_nil, app_nil_r, world_eta. done.
  - cbn [for_each]. unfold bind at 1. rewrite loop_body_step.
    cbn [List.filter].
    destruct (value_skipped c param (self w) val) eqn:Hr; cbn [negb].
    + rewrite IH. cbn [self warnings].
      rewrite fmap_cons, <- app_assoc. done.
    + rewrite IH. cbn [self warnings].
      rewrite extend_app, fmap_cons.
      cbn [extend _skip_input_checks _norm_kernels].
      erewrite (filter_ext (λ v, negb (value_skipped c param (extend _ _) v)));
        [|intros v; by rewrite value_skipped_extend].
      erewrite (filter_ext (value_skipped c param (extend _ _)));
        [|intros v; by rewrite value_skipped_extend].
      done.
Qed.

(** On a bucket that is attached to no sample only the constructors decide. *)
Lemma value_skipped_unattached c param kb val :
  _num_samples kb = None →
  value_skipped c param kb val
  = value_raises c param (_skip_input_checks kb) (_norm_kernels kb) val.
Proof. intros Hn. unfold value_skipped, attached. by rewrite Hn, orb_false_r. Qed.

(** On an attached bucket every value is skipped. *)
Lemma value_skipped_attached c param kb val :
  attached kb = true → value_skipped c param kb val = true.
Proof. intros Ha. unfold value_skipped. by rewrite Ha, orb_true_r. Qed.

(** [add_parametrized_kernels] on a valid class, case by case. *)
Lemma add_None c param w :
  issubclass_BaseKernelFunction (PyType c) = true →
  add_parametrized_kernels (PyType c) param PyNone w = (w, Ok tt).
Proof. intros Hc. unfold add_parametrized_kernels. simpl in *. by rewrite Hc. Qed.

Lemma add_list_skipped c param vals w :
  issubclass_BaseKernelFunction (PyType c) = true →
  vals ≠ [] →
  add_parametrized_kernels (PyType c) param (PyList vals) w
  = (mkWorld
       (extend (self w)
          (entry_for c param (_skip_input_checks (self w)) (_norm_kernels (self w))
             <$> List.filter (λ v, negb (value_skipped c param (self w) v)) vals))
       (warnings w
          ++ (UnableToAdd (PyType c) param
                <$> List.filter (value_skipped c param (self w)) vals)),
     Ok tt).
Proof.
  intros Hc Hne. unfold add_parametrized_kernels.
  cbn [isinstance_type negb orb]. rewrite Hc. cbn [negb].
  cbn [is_iterable_but_not_str].
  rewrite bool_decide_eq_true_2 by (destruct vals; simpl; [done|lia]).
  cbn [negb iter]. unfold bind at 1, lift. apply loop_spec_skipped.
Qed.

Lemma add_list c param vals w :
  issubclass_BaseKernelFunction (PyType c) = true →
  vals ≠ [] →
  _num_samples (self w) = None →
  let skip := _skip_input_checks (self w) in
  let norm := _norm_kernels (self w) in
  add_parametrized_kernels (PyType c) param (PyList vals) w
  = (mkWorld
       (extend (self w)
          (entry_for c param skip norm
             <$> List.filter (λ v, negb (value_raises c param skip norm v)) vals))
       (warnings w
          ++ (UnableToAdd (PyType c) param
                <$> List.filter (value_raises c param skip norm) vals)),
     Ok tt).
Proof.
  intros Hc Hne Hn skip norm. rewrite add_list_skipped by done.
  rewrite (filter_ext (λ v, negb (value_skipped c param (self w) v))
                      (λ v, negb (value_raises c param skip norm v)))
    by (intros v; by rewrite value_skipped_unattached).
  rewrite (filter_ext (value_skipped c param (self w))
                      (value_raises c param skip norm))
    by (intros v; by rewrite value_skipped_unattached).
  done.
Qed.

Lemma add_not_iterable c param values w :
  issubclass_BaseKernelFunction (PyType c) = true →
  values ≠ PyNone →
  is_iterable_but_not_str values 1 = false →
  add_parametrized_kernels (PyType c) param values w = (w, Raise ValueError).
Proof.
  intros Hc Hn Hit. unfold add_parametrized_kernels.
  cbn [isinstance_type negb orb]. rewrite Hc, Hit. cbn [negb].
  destruct values; done.
Qed.

Lemma filter_split_length {A} (f : A → bool) (l : list A) :
  length (List.filter (λ x, negb (f x)) l) = length l - length (List.filter f l)
  ∧ length (List.filter f l) ≤ length l.
Proof.
  induction l as [|x l [IH1 IH2]]; simpl; [lia|].
  destruct (f x); simpl; lia.
Qed.

End bucket_facts.

Section bucket_invariants.
Context `{KernelLib}.

(** Whatever its arguments and outcome, a call of [add_parametrized_kernels]
    only adds at the end of the bucket and of the warnings. *)
Lemma add_only_extends kernel_func param values w :
  ∃ added emitted,
    (add_parametrized_kernels kernel_func param values w).1
    = mkWorld (extend (self w) added) (warnings w ++ emitted).
Proof.
  destruct (isinstance_type kernel_func && issubclass_BaseKernelFunction kernel_func)
    eqn:Hk.
  - apply andb_true_iff in Hk as [_ Hk].
    destruct (valid_kernel_func_inv _ Hk) as [c ->].
    assert (Hsame : (w, Raise ValueError : result unit).1
                    = mkWorld (extend (self w) []) (warnings w ++ [])).
    { by rewrite extend_nil, app_nil_r, world_eta. }
    destruct values as [| b | z | s | [|v vals] | c'];
      try (exists [], []; rewrite add_not_iterable by done; exact Hsame).
    + exists [], []. rewrite add_None by done. exact Hsame.
    + eexists _, _. rewrite add_list_skipped by done. reflexivity.
  - exists [], []. rewrite invalid_kernel_func_raises by done.
    by rewrite extend_nil, app_nil_r, world_eta.
Qed.

Lemma add_chain_extends {A} kernel_func param values (k : Py world A) w :
  (∀ w1, ∃ added, self (k w1).1 = extend (self w1) added) →
  ∃ added,
    self (bind (add_parametrized_kernels kernel_func param values) (λ _, k) w).1
    = extend (self w) added.
Proof.
  intros Hk. unfold bind.
  destruct (add_only_extends kernel_func param values w) as (a1 & e1 & H1).
  destruct (add_parametrized_kernels kernel_func param values w) as [w1 [[]|e]];
    simpl in H1; subst w1.
  - destruct (Hk (mkWorld (extend (self w) a1) (warnings w ++ e1))) as [a2 H2].
    exists (a1 ++ a2). rewrite H2. simpl. by rewrite extend_app.
  - by exists a1.
Qed.

(** A bucket that [__init__] returns starts with the linear kernel. *)
Lemma init_first_entry p1 p2 p3 p4 p5 nm normalize_kernels skip_input_checks ws ws' kb :
  KernelBucket_init p1 p2 p3 p4 p5 nm normalize_kernels skip_input_checks ws
  = (ws', Ok kb) →
  ∃ norm, normalize_kernels = PyBool norm ∧ km_set kb !! 0 = Some (linear_km norm).
Proof.
  unfold KernelBucket_init.
  destruct normalize_kernels as [| norm | | | |]; simpl; try discriminate.
  destruct skip_input_checks as [| skip | | | |]; simpl; try discriminate.
  match goal with |- context [bind ?m ?k ?w0] =>
    assert (Hext : ∃ added, self (bind m k w0).1 = extend (self w0) added);
    [| destruct (bind m k w0) as [w1 [[]|e]]; [|discriminate] ]
  end.
  - repeat (apply add_chain_extends; intros ?).
    destruct (add_only_extends (PyType (ClsKernel SigmoidKernel)) "offset" p5 w3)
      as (a & e & Ha).
    exists a. by rewrite Ha.
  - destruct Hext as [added Hext]. simpl in Hext.
    intros [= <- <-]. exists norm. split; [done|]. by rewrite Hext.
Qed.

Lemma add_accepted_returns c param values w :
  issubclass_BaseKernelFunction (PyType c) = true →
  accepted_values values →
  (add_parametrized_kernels (PyType c) param values w).2 = Ok tt.
Proof.
  intros Hc [-> | (vals & -> & Hne)].
  - by rewrite add_None.
  - by rewrite add_list_skipped.
Qed.

End bucket_invariants.

Section bucket_claims.
Context `{KernelLib}.

Lemma add_chain_returns c param values (k : Py world unit) w :
  issubclass_BaseKernelFunction (PyType c) = true →
  accepted_values values →
  (∀ w1, (k w1).2 = Ok tt) →
  (bind (add_parametrized_kernels (PyType c) param values) (λ _, k) w).2 = Ok tt.
Proof.
  intros Hc Hv Hk. unfold bind.
  pose proof (add_accepted_returns c param values w Hc Hv) as Hr.
  destruct (add_parametrized_kernels (PyType c) param values w) as [w1 r].
  simpl in Hr. subst r. apply Hk.
Qed.

Lemma init_returns p1 p2 p3 p4 p5 nm norm skip ws :
  accepted_values p1 → accepted_values p2 → accepted_values p3 →
  accepted_values p4 → accepted_values p5 →
  ∃ ws' kb,
    KernelBucket_init p1 p2 p3 p4 p5 nm (PyBool norm) (PyBool skip) ws
    = (ws', Ok kb).
Proof.
  intros H1 H2 H3 H4 H5. unfold KernelBucket_init. cbn [as_bool].
  match goal with |- context [bind ?m ?k ?w0] =>
    assert (Hret : (bind m k w0).2 = Ok tt);
    [| destruct (bind m k w0) as [w1 r]; simpl in Hret; subst r; eauto ]
  end.
  repeat (apply add_chain_returns; [done | done | intros ?]).
  by apply add_accepted_returns.
Qed.

(** C1, as amended. A call of add_parametrized_kernels with a valid kernel
    class appends nothing when values is None; for a list of k values it
    appends exactly k entries minus one per skipped value, a value being
    skipped when its kernel-function construction, its matrix wrapping or its
    appending to the bucket raises; it emits exactly one warning (naming
    class, parameter and value) per skipped value, and no per-value failure
    makes the call raise: the only exception left is the value error for an
    empty list.  On a bucket attached to no sample the skipped values are
    those whose construction or wrapping raises; on an attached bucket
    appending raises, so that every value is skipped. *)
Theorem add_parametrized_kernels_appends
  (c : pyclass) (param : string) (values : pyobj) (w w' : world) (r : result unit) :
  issubclass_BaseKernelFunction (PyType c) = true →
  add_parametrized_kernels (PyType c) param values w = (w', r) →
  (values = PyNone → w' = w ∧ r = Ok tt)
  ∧ (∀ vals, values = PyList vals →
       let failed := List.filter (value_skipped c param (self w)) vals in
       (∃ added, km_set (self w') = km_set (self w) ++ added
                 ∧ length added = length vals - length failed)
       ∧ warnings w' = warnings w ++ (UnableToAdd (PyType c) param <$> failed)
       ∧ length (UnableToAdd (PyType c) param <$> failed) = length failed
       ∧ (r = Ok tt ∨ (vals = [] ∧ r = Raise ValueError))
       ∧ (attached (self w) = false →
          failed = List.filter (value_raises c param (_skip_input_checks (self w))
                                             (_norm_kernels (self w))) vals)
       ∧ (attached (self w) = true → failed = vals)).
Proof.
  intros Hc Hrun. split.
  - intros ->. rewrite add_None in Hrun by done. by injection Hrun as <- <-.
  - intros vals -> failed.
    assert (Hcauses :
      (attached (self w) = false →
       failed = List.filter (value_raises c param (_skip_input_checks (self w))
                                          (_norm_kernels (self w))) vals)
      ∧ (attached (self w) = true → failed = vals)).
    { subst failed. split; intros Ha.
      - apply filter_ext. intros v. unfold value_skipped. by rewrite Ha, orb_false_r.
      - apply forallb_filter_id, forallb_forall. intros v _.
        by apply value_skipped_attached. }
    destruct (decide (vals = [])) as [-> | Hne].
    + rewrite add_not_iterable in Hrun by done. injection Hrun as <- <-.
      split; [|split; [|split; [|split]]].
      * exists []. by rewrite app_nil_r.
      * by rewrite app_nil_r.
      * done.
      * by right.
      * exact Hcauses.
    + rewrite add_list_skipped in Hrun by done. injection Hrun as <- <-.
      cbn [self warnings extend km_set]. fold failed.
      split; [|split; [|split; [|split]]].
      * eexists. split; [reflexivity|].
        rewrite length_fmap. apply (filter_split_length _ vals).
      * done.
      * by rewrite length_fmap.
      * by left.
      * exact Hcauses.
Qed.

(** C4. A KernelBucket constructed with any combination of parameter-value
    iterables, each possibly None, is returned and its first entry is the
    linear-kernel matrix, whatever the parameter arguments are. *)
Theorem first_entry_is_linear
  (p1 p2 p3 p4 p5 : pyobj) (nm : string) (norm skip : bool) (ws : list warning) :
  accepted_values p1 → accepted_values p2 → accepted_values p3 →
  accepted_values p4 → accepted_values p5 →
  ∃ ws' kb,
    KernelBucket_init p1 p2 p3 p4 p5 nm (PyBool norm) (PyBool skip) ws
    = (ws', Ok kb)
    ∧ km_set kb !! 0 = Some (linear_km norm).
Proof.
  intros H1 H2 H3 H4 H5.
  destruct (init_returns p1 p2 p3 p4 p5 nm norm skip ws) as (ws' & kb & Hinit);
    try done.
  exists ws', kb. split; [done|].
  destruct (init_first_entry _ _ _ _ _ _ _ _ _ _ _ Hinit) as (n & [= <-] & Hhd).
  done.
Qed.

(** C5. With a kernel_func that is not a class derived from the
    kernel-function base class, add_parametrized_kernels raises the domain
    exception, which is not the generic type error, and leaves the bucket
    (and the warnings) exactly as they were. *)
Theorem add_parametrized_kernels_rejects_non_kernel
  (kernel_func : pyobj) (param : string) (values : pyobj) (w : world) :
  issubclass_BaseKernelFunction kernel_func = false →
  add_parametrized_kernels kernel_func param values w
  = (w, Raise KernelMethodsException)
  ∧ KernelMethodsException ≠ TypeError.
Proof.
  intros Hbad. split; [|discriminate].
  apply invalid_kernel_func_raises. by rewrite Hbad, andb_false_r.
Qed.

(** C6. With a valid kernel class, add_parametrized_kernels raises the value
    error whenever values is neither None nor a list of at least one value,
    in particular for a scalar, a bare string and an empty list, and then
    appends nothing. *)
Theorem add_parametrized_kernels_rejects_values
  (c : pyclass) (param : string) (w : world) :
  issubclass_BaseKernelFunction (PyType c) = true →
  (∀ values, values ≠ PyNone →
     ¬ (∃ vals, values = PyList vals ∧ vals ≠ []) →
     add_parametrized_kernels (PyType c) param values w = (w, Raise ValueError))
  ∧ (∀ z, add_parametrized_kernels (PyType c) param (PyInt z) w
          = (w, Raise ValueError))
  ∧ (∀ s, add_parametrized_kernels (PyType c) param (PyStr s) w
          = (w, Raise ValueError))
  ∧ add_parametrized_kernels (PyType c) param (PyList []) w
    = (w, Raise ValueError).
Proof.
  intros Hc. repeat split; intros; try by apply add_not_iterable.
  apply add_not_iterable; [done | done |].
  destruct values as [| | | | [|v vals] |]; try done.
  exfalso. eauto.
Qed.

(** C10. The class check comes first: with a kernel_func that is not a class
    derived from the kernel-function base class the call raises the domain
    exception for every values argument, None included; None is a silent
    no-op only for a valid class. *)
Theorem kernel_check_precedes_None
  (kernel_func : pyobj) (param : string) (w : world) :
  issubclass_BaseKernelFunction kernel_func = false →
  (∀ values, add_parametrized_kernels kernel_func param values w
             = (w, Raise KernelMethodsException))
  ∧ add_parametrized_kernels kernel_func param PyNone w
    = (w, Raise KernelMethodsException)
  ∧ (∀ c, issubclass_BaseKernelFunction (PyType c) = true →
          add_parametrized_kernels (PyType c) param PyNone w = (w, Ok tt)).
Proof.
  intros Hbad.
  assert (Hall : ∀ values, add_parametrized_kernels kernel_func param values w
                           = (w, Raise KernelMethodsException)).
  { intros values. apply invalid_kernel_func_raises. by rewrite Hbad, andb_false_r. }
  repeat split; [done | done |]. intros c Hc. by apply add_None.
Qed.

End bucket_claims.

(** C8. make_kernel_bucket with the strategy name linear_only, in any mix of
    upper and lower case, returns a bucket of size exactly 1 whose single
    entry is the linear kernel: the five parameter iterables are passed as
    None. *)
Theorem linear_only_bucket `{KernelLib} `{Config}
  (strategy : string) (norm skip : bool) (ws : list warning) :
  lower strategy = "linear_only" →
  ∃ kb,
    make_kernel_bucket (StrategyObj (PyStr strategy)) (PyBool norm) (PyBool skip) ws
    = (ws, Ok kb)
    ∧ size kb = 1
    ∧ km_set kb = [linear_km norm].
Proof.
  intros Hs. unfold make_kernel_bucket. rewrite Hs.
  eexists. split; [vm_compute; reflexivity|]. done.
Qed.

(** ** The bucket claims on concrete calls *)

(** Three degrees, of which 0 is refused by the polynomial kernel: two
    entries are appended to the one-entry bucket and one warning is emitted. *)
Lemma add_parametrized_kernels_appends_witness :
  ∃ w' r,
    @add_parametrized_kernels sample_lib (PyType (ClsKernel PolyKernel)) "degree"
      (PyList [PyInt 2; PyInt 0; PyInt 3]) sample_world = (w', r)
    ∧ length (km_set (self w')) = 3
    ∧ warnings w' = [UnableToAdd (PyType (ClsKernel PolyKernel)) "degree" (PyInt 0)]
    ∧ r = Ok tt.
Proof.
  eexists _, _. split; [vm_compute; reflexivity|].
  destruct (@add_parametrized_kernels_appends sample_lib
              (ClsKernel PolyKernel) "degree" (PyList [PyInt 2; PyInt 0; PyInt 3])
              sample_world _ _ eq_refl eq_refl) as [_ Hlist].
  destruct (Hlist _ eq_refl) as ((added & Hadd & Hlen) & Hwarn & _ & Hr & _).
  split; [|split].
  - apply (f_equal length) in Hadd. rewrite length_app, Hlen in Hadd. exact Hadd.
  - exact Hwarn.
  - destruct Hr as [Hr | [Hnil _]]; [exact Hr | discriminate Hnil].
Defined.

Lemma first_entry_is_linear_witness :
  accepted_values (PyList [PyInt 2; PyInt 0])
  ∧ accepted_values PyNone
  ∧ ∃ ws' kb,
      @KernelBucket_init sample_lib (PyList [PyInt 2; PyInt 0]) PyNone PyNone
        (PyList [PyInt 1]) PyNone "KB" (PyBool false) (PyBool true) []
      = (ws', Ok kb)
      ∧ km_set kb !! 0 = Some (linear_km false).
Proof.
  assert (Hl : ∀ v vals, accepted_values (PyList (v :: vals))).
  { intros v vals. right. exists (v :: vals). split; [reflexivity | discriminate]. }
  assert (Hn : accepted_values PyNone) by (left; reflexivity).
  split; [apply Hl | split; [exact Hn|]].
  apply (@first_entry_is_linear sample_lib); auto.
Defined.

Lemma add_parametrized_kernels_rejects_non_kernel_witness :
  issubclass_BaseKernelFunction (PyType (ClsOther "int")) = false
  ∧ @add_parametrized_kernels sample_lib (PyType (ClsOther "int")) "degree"
      (PyList [PyInt 2; PyInt 3]) sample_world
    = (sample_world, Raise KernelMethodsException)
  ∧ KernelMethodsException ≠ TypeError.
Proof.
  split; [reflexivity|].
  apply (@add_parametrized_kernels_rejects_non_kernel sample_lib). reflexivity.
Defined.

Lemma add_parametrized_kernels_rejects_values_witness :
  issubclass_BaseKernelFunction (PyType (ClsKernel GaussianKernel)) = true
  ∧ @add_parametrized_kernels sample_lib (PyType (ClsKernel GaussianKernel)) "sigma"
      (PyInt 5) sample_world
    = (sample_world, Raise ValueError).
Proof.
  split; [reflexivity|].
  apply (@add_parametrized_kernels_rejects_values sample_lib
           (ClsKernel GaussianKernel) "sigma" sample_world eq_refl).
Defined.

Lemma kernel_check_precedes_None_witness :
  issubclass_BaseKernelFunction (PyInt 7) = false
  ∧ @add_parametrized_kernels sample_lib (PyInt 7) "gamma" PyNone sample_world
    = (sample_world, Raise KernelMethodsException).
Proof.
  split; [reflexivity|].
  apply (@kernel_check_precedes_None sample_lib (PyInt 7) "gamma" sample_world eq_refl).
Defined.

Lemma linear_only_bucket_witness :
  lower "Linear_ONLY" = "linear_only"
  ∧ ∃ kb,
      @make_kernel_bucket sample_lib sample_config
        (StrategyObj (PyStr "Linear_ONLY")) (PyBool true) (PyBool false) []
      = ([], Ok kb)
      ∧ size kb = 1
      ∧ km_set kb = [linear_km true].
Proof.
  split; [reflexivity|].
  apply (@linear_only_bucket sample_lib sample_config). reflexivity.
Defined.

(** * Properties of arrays *)

Section array_facts.
Context {A : Type}.
Implicit Types (a : ndarray A) (n i j : nat).

Lemma offset_bound n i j : i < n → j < n → i * n + j < n * n.
Proof.
  intros Hi Hj. apply Nat.lt_le_trans with (S i * n); [simpl; lia|].
  apply Nat.mul_le_mono_r. lia.
Qed.

Lemma np_full_square n (v : A) : square (np_full (n, n) v) n.
Proof. unfold square, np_full. simpl. by rewrite length_replicate. Qed.

Lemma np_full_get n (v : A) i j :
  i < n → j < n → get_cell (np_full (n, n) v) i j = Ok v.
Proof.
  intros Hi Hj. unfold get_cell, in_shape, offset, np_full. simpl.
  rewrite !bool_decide_eq_true_2 by done. simpl.
  rewrite lookup_replicate_2; [done|].
  rewrite Nat.mul_1_r. by apply offset_bound.
Qed.

Lemma square_offset a n i j : square a n → offset a i j = i * n + j.
Proof. intros (_ & Hst & _). unfold offset. rewrite Hst. simpl. lia. Qed.

Lemma square_in_shape a n i j :
  square a n → in_shape a i j = bool_decide (i < n) && bool_decide (j < n).
Proof. intros (Hsh & _ & _). unfold in_shape. by rewrite Hsh. Qed.

Lemma offset_inj n i j i' j' :
  j < n → j' < n → i * n + j = i' * n + j' → i = i' ∧ j = j'.
Proof.
  intros Hj Hj' Heq.
  assert (Hii : i = i').
  { destruct (Nat.lt_trichotomy i i') as [Hlt | [Heqi | Hlt]]; [|done|]; exfalso.
    - assert (S i * n ≤ i' * n) by (apply Nat.mul_le_mono_r; lia). simpl in *. lia.
    - assert (S i' * n ≤ i * n) by (apply Nat.mul_le_mono_r; lia). simpl in *. lia. }
  subst i'. split; [done | lia].
Qed.

(** The transposed view reads the mirrored cell. *)
Lemma get_cell_transpose a i j : get_cell (transpose a) i j = get_cell a j i.
Proof.
  unfold get_cell, in_shape, offset, transpose. simpl.
  rewrite andb_comm, (Nat.add_comm (i * _)). done.
Qed.

(** Writing an in-range cell of a square array succeeds, keeps the array
    square, and changes that cell only. *)
Lemma set_cell_square a n i j (v : A) :
  square a n → i < n → j < n →
  ∃ a', set_cell a i j v = Ok a'
        ∧ square a' n
        ∧ get_cell a' i j = Ok v
        ∧ ∀ i' j', (i', j') ≠ (i, j) → get_cell a' i' j' = get_cell a i' j'.
Proof.
  intros Hsq Hi Hj. pose proof Hsq as (Hsh & Hst & Hlen).
  assert (Hoff : offset a i j < length (buffer a)).
  { rewrite (square_offset a n) by done. rewrite Hlen. by apply offset_bound. }
  unfold set_cell. rewrite (square_in_shape a n) by done.
  rewrite !bool_decide_eq_true_2 by done. simpl.
  eexists. split; [reflexivity|].
  assert (Hsq' : square (mkArray (shape a) (strides a)
                                 (<[offset a i j := v]> (buffer a))) n).
  { unfold square. simpl. by rewrite length_insert. }
  split; [done|]. split.
  - unfold get_cell. rewrite (square_in_shape _ n) by done.
    rewrite !bool_decide_eq_true_2 by done. simpl.
    unfold offset at 1. simpl. fold (offset a i j).
    by rewrite list_lookup_insert_eq.
  - intros i' j' Hne. unfold get_cell.
    rewrite (square_in_shape _ n), (square_in_shape a n) by done.
    destruct (bool_decide (i' < n)) eqn:Hi'; [|done].
    destruct (bool_decide (j' < n)) eqn:Hj'; [|done].
    apply bool_decide_eq_true_1 in Hi', Hj'. simpl.
    unfold offset at 1. simpl. fold (offset a i' j').
    rewrite list_lookup_insert_ne; [done|].
    rewrite !(square_offset a n) by done. intros Heq.
    apply offset_inj in Heq as [-> ->]; done.
Qed.

(** Reading a list of cells that all hold a value. *)
Lemma take_cells_spec a (g : nat * nat → A) idx :
  (∀ p, p ∈ idx → get_cell a p.1 p.2 = Ok (g p)) →
  take_cells a idx = Ok (g <$> idx).
Proof.
  induction idx as [|[i j] idx IH]; intros Hg; [done|].
  pose proof (Hg (i, j) ltac:(left)) as Hhere. simpl in Hhere.
  simpl. rewrite Hhere, IH; [done|].
  intros p Hp. apply Hg. by right.
Qed.

(** Writing a list of distinct in-range cells of a square array: each gets
    its value, every other cell keeps its own. *)
Lemma put_cells_spec n (g : nat * nat → A) idx : ∀ a,
  square a n →
  NoDup idx →
  (∀ p, p ∈ idx → p.1 < n ∧ p.2 < n) →
  ∃ a', put_cells a idx (g <$> idx) = Ok a'
        ∧ square a' n
        ∧ (∀ p, p ∈ idx → get_cell a' p.1 p.2 = Ok (g p))
        ∧ (∀ p, p ∉ idx → get_cell a' p.1 p.2 = get_cell a p.1 p.2).
Proof.
  induction idx as [|[i j] idx IH]; intros a Hsq Hnd Hin.
  - exists a. split; [done|]. split; [done|]. split; [|done].
    intros p Hp. by apply elem_of_nil in Hp.
  - apply NoDup_cons in Hnd as [Hfresh Hnd].
    destruct (Hin (i, j)) as [Hi Hj]; [left|]. simpl in Hi, Hj.
    destruct (set_cell_square a n i j (g (i, j)) Hsq Hi Hj)
      as (a1 & Hset & Hsq1 & Hget1 & Hother1).
    destruct (IH a1 Hsq1 Hnd) as (a' & Hput & Hsq' & Hget' & Hother').
    { intros p Hp. apply Hin. by right. }
    exists a'. cbn [fmap list_fmap put_cells]. rewrite Hset.
    split; [exact Hput|]. split; [done|]. split.
    + intros p Hp. apply elem_of_cons in Hp as [-> | Hp]; [|by apply Hget'].
      etrans; [apply (Hother' (i, j) Hfresh)|]. exact Hget1.
    + intros [i' j'] Hp. apply not_elem_of_cons in Hp as [Hne Hp].
      etrans; [apply (Hother' (i', j') Hp)|]. simpl. by apply Hother1.
Qed.

End array_facts.

(** * The index pairs of the two passes *)

Lemma elem_of_range (x start stop : nat) : x ∈ range start stop ↔ start ≤ x < stop.
Proof. unfold range. rewrite elem_of_seq. lia. Qed.

Lemma elem_of_upper_pairs n i j : (i, j) ∈ upper_pairs n ↔ i ≤ j < n.
Proof.
  unfold upper_pairs. rewrite list_elem_of_bind. split.
  - intros (i' & Hj & Hi). apply list_elem_of_fmap in Hj as (j' & [= -> ->] & Hj).
    apply elem_of_range in Hj, Hi. lia.
  - intros Hij. exists i. split.
    + apply list_elem_of_fmap. exists j. split; [done|]. apply elem_of_range. lia.
    + apply elem_of_range. lia.
Qed.

Lemma elem_of_tril_indices n i j : (i, j) ∈ tril_indices n ↔ j ≤ i < n.
Proof.
  unfold tril_indices. rewrite list_elem_of_bind. split.
  - intros (i' & Hj & Hi). apply list_elem_of_fmap in Hj as (j' & [= -> ->] & Hj).
    apply elem_of_seq in Hj, Hi. lia.
  - intros Hij. exists i. split.
    + apply list_elem_of_fmap. exists j. split; [done|]. apply elem_of_seq. lia.
    + apply elem_of_seq. lia.
Qed.

Lemma NoDup_rows (l : list nat) (row : nat → list nat) :
  NoDup l → (∀ i, NoDup (row i)) → NoDup (i ← l; (λ j, (i, j)) <$> row i).
Proof.
  intros Hl Hrow. apply NoDup_bind; [| |done].
  - intros i1 i2 [i j] _ _ H1 H2.
    apply list_elem_of_fmap in H1 as (? & [= -> ->] & _).
    apply list_elem_of_fmap in H2 as (? & [= -> _] & _). done.
  - intros i _. apply NoDup_fmap_2; [|done]. intros j1 j2 [= ->]. done.
Qed.

Lemma NoDup_upper_pairs n : NoDup (upper_pairs n).
Proof. apply NoDup_rows; intros; apply NoDup_seq. Qed.

Lemma NoDup_tril_indices n : NoDup (tril_indices n).
Proof. apply NoDup_rows; intros; apply NoDup_seq. Qed.

(** Rows i = start, ..., start + k - 1 of the upper triangle of a matrix of
    size start + k hold k, k - 1, ..., 1 pairs. *)
Lemma length_upper_rows k : ∀ start,
  2 * length (i ← seq start k; (λ j, (i, j)) <$> range i (start + k)) = k * (k + 1).
Proof.
  induction k as [|k IH]; intros start; [done|].
  cbn [seq]. rewrite bind_cons, length_app, length_fmap.
  unfold range at 1. rewrite length_seq.
  replace (start + S k) with (S start + k) by lia.
  specialize (IH (S start)). lia.
Qed.

Lemma length_upper_pairs n : length (upper_pairs n) = n * (n + 1) / 2.
Proof.
  pose proof (length_upper_rows n 0) as Hlen. rewrite Nat.add_0_l in Hlen.
  unfold upper_pairs.
  assert (range 0 n = seq 0 n) as -> by (unfold range; f_equal; lia).
  set (m := n * (n + 1)) in *. apply (Nat.div_unique_exact m 2); lia.
Qed.

(** * Loops *)

Section loop_facts.
Context {S A B : Type}.

Lemma for_acc_app (xs ys : list A) (acc : B) (body : A → B → Py S B) s :
  for_acc (xs ++ ys) acc body s
  = bind (for_acc xs acc body) (λ acc', for_acc ys acc' body) s.
Proof.
  revert acc s. induction xs as [|x xs IH]; intros acc s; [done|].
  cbn [app for_acc]. unfold bind.
  destruct (body x acc s) as [s' [acc'|e]]; [|done]. by rewrite IH.
Qed.

Lemma for_acc_fmap {A'} (f : A' → A) (xs : list A') (acc : B)
    (body : A → B → Py S B) s :
  for_acc (f <$> xs) acc body s = for_acc xs acc (λ x, body (f x)) s.
Proof.
  revert acc s. induction xs as [|x xs IH]; intros acc s; [done|].
  cbn [fmap list_fmap for_acc]. unfold bind.
  destruct (body (f x) acc s) as [s' [acc'|e]]; [apply IH | done].
Qed.

End loop_facts.

(** Two nested loops over one accumulator are one loop over the pairs. *)
Lemma for_acc_nested {S B : Type} (xs : list nat) (inner : nat → list nat) (acc : B)
    (body : nat → nat → B → Py S B) s :
  for_acc xs acc (λ x acc, for_acc (inner x) acc (body x)) s
  = for_acc (x ← xs; (λ y, (x, y)) <$> inner x) acc (λ p, body p.1 p.2) s.
Proof.
  revert acc s. induction xs as [|x xs IH]; intros acc s; [done|].
  rewrite bind_cons, for_acc_app. cbn [for_acc]. unfold bind.
  rewrite for_acc_fmap. cbn [fst snd].
  change (λ y, body x y) with (body x).
  destruct (for_acc (inner x) acc (body x) s) as [s' [acc'|e]]; [apply IH | done].
Qed.

(** A loop over index pairs whose body records one call and writes one cell
    of a square array writes the cells as [put_cells] does and records the
    calls in order. *)
Lemma pair_loop_spec {V C : Type} (n : nat)
    (body : nat * nat → ndarray V → Py (list C) (ndarray V))
    (value : nat * nat → V) (call : nat * nat → C) :
  (∀ p a log, p.1 < n → p.2 < n → square a n →
     ∃ a', set_cell a p.1 p.2 (value p) = Ok a'
           ∧ body p a log = (log ++ [call p], Ok a')) →
  ∀ ps a log,
    square a n →
    (∀ p, p ∈ ps → p.1 < n ∧ p.2 < n) →
    ∃ a', for_acc ps a body log = (log ++ (call <$> ps), Ok a')
          ∧ put_cells a ps (value <$> ps) = Ok a'.
Proof.
  intros Hbody. induction ps as [|[i j] ps IH]; intros a log Hsq Hin.
  - exists a. by rewrite app_nil_r.
  - destruct (Hin (i, j)) as [Hi Hj]; [left|].
    destruct (Hbody (i, j) a log Hi Hj Hsq) as (a1 & Hset & Hrun).
    simpl in Hset, Hi, Hj.
    destruct (set_cell_square a n i j (value (i, j)) Hsq Hi Hj)
      as (a1' & Hset' & Hsq1 & _).
    rewrite Hset in Hset'. injection Hset' as <-.
    destruct (IH a1 (log ++ [call (i, j)]) Hsq1) as (a' & Hloop & Hput).
    { intros p Hp. apply Hin. by right. }
    exists a'. cbn [for_acc fmap list_fmap put_cells]. unfold bind.
    rewrite Hrun, Hset, Hloop, <- app_assoc. done.
Qed.

(** * The similarity engine *)

Section similarity_facts.
Context {V : Type} `{Numerics V}.

(** The dict [metric_func] knows exactly the two metric names. *)
Lemma metric_func_lookup (metric : string) :
  dict_getitem (<["align" := align_metric]> {[ "corr" := correlation_km ]}) metric
  = match metric_of metric with
    | Some estimator => Ok estimator
    | None => Raise KeyError
    end.
Proof.
  unfold dict_getitem, metric_of.
  rewrite lookup_insert, lookup_singleton.
  destruct (String.eqb_spec metric "corr") as [-> | Hcorr].
  { repeat case_decide; done. }
  destruct (String.eqb_spec metric "align") as [-> | Halign].
  { repeat case_decide; done. }
  repeat case_decide; congruence.
Qed.

(** One entry of the bucket, read by index. *)
Lemma getitem_full_at (kb : KernelBucket) (idx : nat) :
  idx < size kb →
  ∃ km, getitem kb idx = Ok km ∧ full_at kb idx = full km.
Proof.
  intros Hidx. unfold getitem, full_at.
  destruct (lookup_lt_is_Some_2 (km_set kb) idx Hidx) as [km ->]. eauto.
Qed.

(** A run of [pairwise_similarity] with a known metric: it returns, it has
    evaluated the metric on the upper triangle in loop order and nowhere
    else, and the cell (i, j) holds the value of the pair with the smaller
    index first. *)
Lemma pairwise_run (kb : KernelBucket) (metric : string)
    (estimator : ndarray V → ndarray V → V) (log : call_log) :
  metric_of metric = Some estimator →
  ∃ pm,
    pairwise_similarity kb metric log
    = (log ++ ((λ p, (full_at kb p.1, full_at kb p.2)) <$> upper_pairs (size kb)),
       Ok pm)
    ∧ square pm (size kb)
    ∧ ∀ i j, i < size kb → j < size kb →
        get_cell pm i j
        = Ok (if bool_decide (i ≤ j)
              then estimator (full_at kb i) (full_at kb j)
              else estimator (full_at kb j) (full_at kb i)).
Proof.
  intros Hmetric. set (n := size kb).
  set (value := λ p : nat * nat, estimator (full_at kb p.1) (full_at kb p.2)).
  set (call := λ p : nat * nat, (full_at kb p.1, full_at kb p.2)).
  unfold pairwise_similarity. fold n.
  unfold bind at 1, lift.
  change (dict_getitem _ metric) with
    (dict_getitem (<["align" := align_metric]> {[ "corr" := correlation_km ]}) metric).
  rewrite metric_func_lookup, Hmetric.
  unfold bind at 1. rewrite for_acc_nested. fold (upper_pairs n).
  match goal with |- context [for_acc (upper_pairs n) _ ?b log] =>
    destruct (pair_loop_spec n b value call) with
      (ps := upper_pairs n) (a := np_full (n, n) (nan : V)) (log := log)
      as (pm1 & Hloop & Hput1)
  end.
  { intros [i j] a lg Hi Hj Hsq. simpl in Hi, Hj.
    destruct (set_cell_square a n i j (value (i, j)) Hsq Hi Hj) as (a' & Hset & _).
    exists a'. split; [exact Hset|]. cbn [fst snd].
    destruct (getitem_full_at kb i Hi) as (km_i & Hgi & Hfi).
    destruct (getitem_full_at kb j Hj) as (km_j & Hgj & Hfj).
    unfold bind, lift, call_metric. rewrite Hgi, Hgj.
    unfold value, call in *. cbn [fst snd] in *. rewrite Hfi, Hfj in *.
    by rewrite Hset. }
  { apply np_full_square. }
  { intros [i j] Hp. apply elem_of_upper_pairs in Hp. simpl. lia. }
  unfold call_log in *. rewrite Hloop.
  destruct (put_cells_spec n value (upper_pairs n) (np_full (n, n) nan))
    as (pm1' & Hput1' & Hsq1 & Hupper & Hrest1).
  { apply np_full_square. }
  { apply NoDup_upper_pairs. }
  { intros [i j] Hp. apply elem_of_upper_pairs in Hp. simpl. lia. }
  rewrite Hput1 in Hput1'. injection Hput1' as <-.
  set (mirror := λ p : nat * nat, value (p.2, p.1)).
  unfold bind at 1, lift.
  rewrite (take_cells_spec (transpose pm1) mirror).
  2:{ intros [i j] Hp. apply elem_of_tril_indices in Hp.
      rewrite get_cell_transpose. cbn [fst snd].
      apply (Hupper (j, i)). apply elem_of_upper_pairs. lia. }
  destruct (put_cells_spec n mirror (tril_indices n) pm1 Hsq1)
    as (pm2 & Hput2 & Hsq2 & Hlower & Hrest2).
  { apply NoDup_tril_indices. }
  { intros [i j] Hp. apply elem_of_tril_indices in Hp. simpl. lia. }
  unfold bind, ret. rewrite Hput2.
  exists pm2. split; [done|]. split; [done|].
  intros i j Hi Hj. case_bool_decide as Hij.
  - destruct (decide (i = j)) as [-> | Hne].
    + apply (Hlower (j, j)). apply elem_of_tril_indices. lia.
    + etrans; [apply (Hrest2 (i, j))|].
      * rewrite elem_of_tril_indices. lia.
      * apply (Hupper (i, j)). apply elem_of_upper_pairs. lia.
  - apply (Hlower (i, j)). apply elem_of_tril_indices. lia.
Qed.

(** With any other metric name the lookup in [metric_func] raises at once. *)
Lemma pairwise_unknown_metric (kb : KernelBucket) (metric : string) (log : call_log) :
  metric_of metric = None →
  pairwise_similarity kb metric log = (log, Raise KeyError).
Proof.
  intros Hmetric. unfold pairwise_similarity.
  unfold bind at 1, lift.
  change (dict_getitem _ metric) with
    (dict_getitem (<["align" := align_metric]> {[ "corr" := correlation_km ]}) metric).
  by rewrite metric_func_lookup, Hmetric.
Qed.

End similarity_facts.

(** * The ideal kernel *)

Section comprehension_facts.
Context {A B : Type}.

(** A loop over the indices of a list is a loop over its elements. *)
Lemma seq_bind_elements (l : list A) (byIndex : nat → list B) (byElem : A → list B) :
  ∀ start,
    (∀ i a, l !! i = Some a → byIndex (start + i) = byElem a) →
    (i ← seq start (length l); byIndex i) = (a ← l; byElem a).
Proof.
  induction l as [|a l IH]; intros start Hsame; [done|].
  cbn [length seq]. rewrite !bind_cons. f_equal.
  - rewrite <- (Hsame 0 a eq_refl). f_equal. lia.
  - apply IH. intros i b Hb. rewrite <- (Hsame (S i) b Hb). f_equal. lia.
Qed.

Lemma seq_fmap_elements (l : list A) (byIndex : nat → B) (byElem : A → B) :
  ∀ start,
    (∀ i a, l !! i = Some a → byIndex (start + i) = byElem a) →
    byIndex <$> seq start (length l) = byElem <$> l.
Proof.
  induction l as [|a l IH]; intros start Hsame; [done|].
  cbn [length seq]. rewrite !fmap_cons. f_equal.
  - rewrite <- (Hsame 0 a eq_refl). f_equal. lia.
  - apply IH. intros i b Hb. rewrite <- (Hsame (S i) b Hb). f_equal. lia.
Qed.

Lemma bind_singleton_fmap (f : A → B) (l : list A) : (a ← l; [f a]) = f <$> l.
Proof. induction l as [|a l IH]; [done|]. by rewrite bind_cons, IH. Qed.

Lemma sequence_Ok (l : list A) : sequence (Ok <$> l) = Ok l.
Proof. induction l as [|a l IH]; [done|]. cbn. by rewrite IH. Qed.

Lemma fmap_Ok_bind (f : A → list B) (l : list A) :
  (a ← l; Ok <$> f a) = Ok <$> (a ← l; f a).
Proof.
  induction l as [|a l IH]; [done|]. by rewrite !bind_cons, fmap_app, IH.
Qed.

End comprehension_facts.

(** The cell (i, j) of a row-major grid built row by row. *)
Lemma grid_lookup {A B C : Type} (h : A → B → C) (cols : list B) :
  ∀ (rows : list A) i j a b,
    rows !! i = Some a → cols !! j = Some b →
    (x ← rows; h x <$> cols) !! (i * length cols + j) = Some (h a b).
Proof.
  induction rows as [|x rows IH]; intros i j a b Ha Hb; [done|].
  rewrite bind_cons. destruct i as [|i]; simpl in Ha.
  - injection Ha as ->. cbn [Nat.mul Nat.add]. rewrite lookup_app_l.
    + by rewrite list_lookup_fmap, Hb.
    + rewrite length_fmap. by apply lookup_lt_Some in Hb.
  - rewrite lookup_app_r; rewrite length_fmap; [|lia].
    replace (S i * length cols + j - length cols) with (i * length cols + j) by lia.
    by apply IH.
Qed.

Section ideal_facts.
Context {T : Type} `{Dtype T}.

Lemma get_cell_column (targets : list T) i t :
  targets !! i = Some t → get_cell (reshape_column targets) i 0 = Ok t.
Proof.
  intros Ht. unfold get_cell, in_shape, offset, reshape_column. simpl.
  rewrite bool_decide_eq_true_2 by (by apply lookup_lt_Some in Ht). simpl.
  replace (i * 1 + 0) with i by lia. by rewrite Ht.
Qed.

Lemma dot_cell_column_row (targets : list T) i j ti tj :
  targets !! i = Some ti → targets !! j = Some tj →
  dot_cell (reshape_column targets) (transpose (reshape_column targets)) i j
  = Ok (dadd dzero (dmul ti tj)).
Proof.
  intros Hi Hj. unfold dot_cell. cbn [reshape_column shape snd seq foldl].
  rewrite get_cell_transpose.
  by rewrite (get_cell_column _ _ _ Hi), (get_cell_column _ _ _ Hj).
Qed.

(** [ideal_kernel] returns, and the array it returns holds, row by row, the
    products accumulated from zero. *)
Lemma ideal_kernel_run (targets : list T) :
  ideal_kernel targets
  = Ok (mkArray (length targets, length targets) (length targets, 1)
          (a ← targets; (λ b, dadd dzero (dmul a b)) <$> targets)).
Proof.
  unfold ideal_kernel, dot. cbn [reshape_column transpose shape fst snd].
  rewrite bool_decide_eq_true_2 by done.
  rewrite (seq_bind_elements targets _
             (λ a, Ok <$> ((λ b, dadd dzero (dmul a b)) <$> targets))).
  - by rewrite fmap_Ok_bind, sequence_Ok.
  - intros i a Ha. cbn [Nat.add].
    rewrite <- list_fmap_compose.
    apply seq_fmap_elements. intros j b Hb. cbn [Nat.add compose].
    by apply dot_cell_column_row.
Qed.

(** Reading a row-major m-by-m buffer back as nested lists. *)
Lemma tolist_grid (h : T → T → T) (targets : list T) :
  tolist (mkArray (length targets, length targets) (length targets, 1)
            (a ← targets; h a <$> targets))
  = (λ a, h a <$> targets) <$> targets.
Proof.
  unfold tolist. cbn [shape strides buffer fst snd].
  apply seq_fmap_elements. intros i a Ha. cbn [Nat.add].
  rewrite (seq_bind_elements targets _ (λ b, [h a b])).
  - apply bind_singleton_fmap.
  - intros j b Hb. cbn [Nat.add]. unfold offset. cbn [strides fst snd].
    replace (j * 1) with j by lia.
    by rewrite (grid_lookup h targets targets i j a b).
Qed.

End ideal_facts.

(** * Claims on the similarity engine *)

Section similarity_claims.
Context {V : Type} `{Numerics V}.

(** C2, as amended. For each of the metric names corr and align,
    pairwise_similarity returns a matrix of the size of the bucket whose
    cells (i, j) and (j, i) hold the identical stored value, for all valid
    indices i and j; compared with the == of the element type the two cells
    are equal unless that value is not a number. *)
Theorem pairwise_similarity_symmetric `{FloatEq V}
  (kb : KernelBucket) (metric : string) (log : call_log) :
  metric = "corr" ∨ metric = "align" →
  ∃ log' pm,
    pairwise_similarity kb metric log = (log', Ok pm)
    ∧ shape pm = (size kb, size kb)
    ∧ ∀ i j, i < size kb → j < size kb →
        ∃ v, get_cell pm i j = Ok v ∧ get_cell pm j i = Ok v
             ∧ (float_eqb v v = true ∨ float_is_nan v = true).
Proof.
  intros Hname.
  assert (Hm : ∃ estimator, metric_of metric = Some estimator).
  { destruct Hname as [-> | ->]; eexists; reflexivity. }
  destruct Hm as [estimator Hm].
  destruct (pairwise_run kb metric estimator log Hm) as (pm & Hrun & Hsq & Hcell).
  eexists _, pm. split; [exact Hrun|]. split; [apply Hsq|].
  intros i j Hi Hj. eexists. split; [by apply Hcell|]. split.
  - rewrite Hcell by done.
    destruct (decide (i = j)) as [-> | Hne]; [done|].
    repeat case_bool_decide; (done || lia).
  - match goal with |- float_eqb ?v ?v = true ∨ _ =>
      destruct (float_is_nan v) eqn:Hnan; [by right | left; by apply float_eqb_refl]
    end.
Qed.

(** C3. Over a bucket of n entries and with a known metric, the cell (i, j)
    of the result holds metric_func(bucket[i].full, bucket[j].full) for every
    i <= j <= n - 1, the diagonal included; the metric is evaluated on these
    pairs and no others, in loop order, which makes n(n+1)/2 evaluations; the
    cells below the diagonal mirror those above it. *)
Theorem pairwise_similarity_upper_triangle
  (kb : KernelBucket) (metric : string) (metric_func : ndarray V → ndarray V → V)
  (log : call_log) :
  (metric = "corr" ∧ metric_func = correlation_km)
  ∨ (metric = "align" ∧ metric_func = align_metric) →
  ∃ calls pm,
    pairwise_similarity kb metric log = (log ++ calls, Ok pm)
    ∧ (∀ i j km_i km_j,
         km_set kb !! i = Some km_i → km_set kb !! j = Some km_j → i ≤ j →
         get_cell pm i j = Ok (metric_func (full km_i) (full km_j)))
    ∧ calls = (λ p, (full_at kb p.1, full_at kb p.2)) <$> upper_pairs (size kb)
    ∧ (∀ i j, (i, j) ∈ upper_pairs (size kb) ↔ i ≤ j < size kb)
    ∧ length calls = size kb * (size kb + 1) / 2
    ∧ (∀ i j, j < i < size kb → get_cell pm i j = get_cell pm j i).
Proof.
  intros Hname.
  assert (Hm : metric_of metric = Some metric_func).
  { by destruct Hname as [[-> ->] | [-> ->]]. }
  destruct (pairwise_run kb metric metric_func log Hm) as (pm & Hrun & Hsq & Hcell).
  eexists _, pm. split; [exact Hrun|]. split; [|split; [done|split; [|split]]].
  - intros i j km_i km_j Hi Hj Hij.
    rewrite Hcell; [| by eapply lookup_lt_Some | by eapply lookup_lt_Some].
    rewrite bool_decide_eq_true_2 by done.
    unfold full_at. by rewrite Hi, Hj.
  - intros i j. apply elem_of_upper_pairs.
  - by rewrite length_fmap, length_upper_pairs.
  - intros i j Hij. rewrite !Hcell by lia.
    by rewrite bool_decide_eq_false_2, bool_decide_eq_true_2 by lia.
Qed.

(** C7. With a metric name other than corr and align, pairwise_similarity
    raises a lookup error (the key error of the dict), evaluates no metric
    and returns no matrix. *)
Theorem pairwise_similarity_unknown_metric
  (kb : KernelBucket) (metric : string) (log : call_log) :
  metric ≠ "corr" → metric ≠ "align" →
  pairwise_similarity kb metric log = (log, Raise KeyError)
  ∧ is_LookupError KeyError = true.
Proof.
  intros Hcorr Halign. split; [|done].
  apply pairwise_unknown_metric. unfold metric_of.
  destruct (String.eqb_spec metric "corr"); [done|].
  destruct (String.eqb_spec metric "align"); done.
Qed.

End similarity_claims.

(** C9. For a sequence of m target values ideal_kernel returns the m-by-m
    outer product of the targets with themselves, computed in the arithmetic
    of the array's element type (whose zero is neutral for its addition). *)
Theorem ideal_kernel_outer_product {T : Type} `{Dtype T} (targets : list T) :
  (∀ x : T, dadd dzero x = x) →
  ∃ K,
    ideal_kernel targets = Ok K
    ∧ shape K = (length targets, length targets)
    ∧ tolist K = (λ a, dmul a <$> targets) <$> targets.
Proof.
  intros Hzero. eexists. split; [apply ideal_kernel_run|]. split; [done|].
  rewrite (tolist_grid (λ a b, dadd dzero (dmul a b))).
  apply list_fmap_ext. intros _ a _. apply list_fmap_ext. intros _ b _. apply Hzero.
Qed.

(** ** The similarity claims on concrete inputs *)

Lemma pairwise_similarity_symmetric_witness :
  ("align" = "corr" ∨ "align" = "align")
  ∧ ∃ log' pm,
      @pairwise_similarity Z sample_numerics sample_bucket3 "align" [] = (log', Ok pm)
      ∧ shape pm = (3, 3)
      ∧ ∀ i j, i < 3 → j < 3 →
          ∃ v, get_cell pm i j = Ok v ∧ get_cell pm j i = Ok v
               ∧ ((v =? v)%Z = true ∨ false = true).
Proof.
  split; [by right|].
  apply (@pairwise_similarity_symmetric Z sample_numerics integer_eq
           sample_bucket3 "align" []).
  by right.
Defined.

Lemma pairwise_similarity_upper_triangle_witness :
  ("corr" = "corr"
   ∧ @correlation_km Z sample_numerics = @correlation_km Z sample_numerics)
  ∧ ∃ calls pm,
      @pairwise_similarity Z sample_numerics sample_bucket3 "corr" [] = (calls, Ok pm)
      ∧ length calls = 6
      ∧ get_cell pm 1 2 = Ok 2%Z.
Proof.
  split; [by split|].
  destruct (@pairwise_similarity_upper_triangle Z sample_numerics sample_bucket3
              "corr" (@correlation_km Z sample_numerics) []
              (or_introl (conj eq_refl eq_refl)))
    as (calls & pm & Hrun & Hcell & _ & _ & Hlen & _).
  exists calls, pm. split; [exact Hrun|]. split; [exact Hlen|].
  apply (Hcell 1 2 _ _ eq_refl eq_refl). lia.
Defined.

Lemma pairwise_similarity_unknown_metric_witness :
  "cosine" ≠ "corr" ∧ "cosine" ≠ "align"
  ∧ @pairwise_similarity Z sample_numerics sample_bucket3 "cosine" []
    = ([], Raise KeyError)
  ∧ is_LookupError KeyError = true.
Proof.
  split; [discriminate|]. split; [discriminate|].
  apply (@pairwise_similarity_unknown_metric Z sample_numerics); discriminate.
Defined.

Lemma ideal_kernel_outer_product_witness :
  (∀ x : Z, (0 + x)%Z = x)
  ∧ ∃ K,
      @ideal_kernel Z Z_dtype [1; -1; 1]%Z = Ok K
      ∧ shape K = (3, 3)
      ∧ tolist K = [[1; -1; 1]; [-1; 1; -1]; [1; -1; 1]]%Z.
Proof.
  split; [intros x; apply Z.add_0_l|].
  apply (@ideal_kernel_outer_product Z Z_dtype [1; -1; 1]%Z).
  intros x. apply Z.add_0_l.
Defined.

(** The model run on the same inputs, by computation. *)
Example pairwise_similarity_align_run :
  ∃ log pm,
    @pairwise_similarity Z sample_numerics sample_bucket3 "align" [] = (log, Ok pm)
    ∧ tolist pm = [[0; 2; 1]; [2; 4; 3]; [1; 3; 2]]%Z
    ∧ length log = 6.
Proof. eexists _, _. split; [vm_compute; reflexivity|]. by vm_compute. Qed.

Example pairwise_similarity_corr_run :
  ∃ log pm,
    @pairwise_similarity Z sample_numerics sample_bucket3 "corr" [] = (log, Ok pm)
    ∧ tolist pm = [[0; 0; 0]; [0; 4; 2]; [0; 2; 1]]%Z.
Proof. eexists _, _. split; [vm_compute; reflexivity|]. by vm_compute. Qed.

Example ideal_kernel_run_example :
  ∃ K, @ideal_kernel Z Z_dtype [1; -1; 1]%Z = Ok K
       ∧ tolist K = [[1; -1; 1]; [-1; 1; -1]; [1; -1; 1]]%Z.
Proof. eexists. split; [vm_compute; reflexivity|]. by vm_compute. Qed.

Example upper_pairs_3 :
  upper_pairs 3 = [(0, 0); (0, 1); (0, 2); (1, 1); (1, 2); (2, 2)].
Proof. reflexivity. Qed.

Example tril_indices_3 :
  tril_indices 3 = [(0, 0); (1, 0); (1, 1); (2, 0); (2, 1); (2, 2)].
Proof. reflexivity. Qed.

Example lower_example : lower "Linear_ONLY" = "linear_only".
Proof. reflexivity. Qed.

(** * Further properties of the bucket *)

Section bucket_more.
Context `{KernelLib}.

Lemma accepts_spec values : accepts values = true ↔ accepted_values values.
Proof.
  split.
  - destruct values as [| | | | [|v vals] |]; try discriminate; intros _.
    + by left.
    + right. by exists (v :: vals).
  - intros [-> | (vals & -> & Hne)]; [done|]. by destruct vals.
Qed.

(** An accepted values argument on a valid class: the family's entries and
    warnings are added, nothing else changes, the call returns. *)
Lemma add_accepted c param values w :
  issubclass_BaseKernelFunction (PyType c) = true →
  accepts values = true →
  _num_samples (self w) = None →
  add_parametrized_kernels (PyType c) param values w
  = (mkWorld
       (extend (self w)
          (family_entries c param (_skip_input_checks (self w))
                          (_norm_kernels (self w)) values))
       (warnings w
          ++ family_warnings c param (_skip_input_checks (self w))
                             (_norm_kernels (self w)) values),
     Ok tt).
Proof.
  intros Hc Hacc Hn. apply accepts_spec in Hacc as [-> | (vals & -> & Hne)].
  - rewrite add_None by done. unfold family_entries, family_warnings. simpl.
    by rewrite extend_nil, app_nil_r, world_eta.
  - by rewrite add_list.
Qed.

(** The same on any bucket, attached or not. *)
Lemma add_accepted_skipped c param values w :
  issubclass_BaseKernelFunction (PyType c) = true →
  accepts values = true →
  add_parametrized_kernels (PyType c) param values w
  = (mkWorld
       (extend (self w)
          (entry_for c param (_skip_input_checks (self w)) (_norm_kernels (self w))
             <$> List.filter (λ v, negb (value_skipped c param (self w) v))
                             (values_of values)))
       (warnings w
          ++ (UnableToAdd (PyType c) param
                <$> List.filter (value_skipped c param (self w)) (values_of values))),
     Ok tt).
Proof.
  intros Hc Hacc. apply accepts_spec in Hacc as [-> | (vals & -> & Hne)].
  - rewrite add_None by done. simpl.
    by rewrite extend_nil, app_nil_r, world_eta.
  - by rewrite add_list_skipped.
Qed.

Lemma add_rejected c param values w :
  issubclass_BaseKernelFunction (PyType c) = true →
  accepts values = false →
  add_parametrized_kernels (PyType c) param values w = (w, Raise ValueError).
Proof.
  intros Hc Hrej. apply add_not_iterable; [done | |].
  - by intros ->.
  - by destruct values as [| | | | [|v vals] |].
Qed.

(** A chain of calls on valid classes returns if and only if every values
    argument is accepted, and otherwise raises the value error. *)
Lemma add_chain_outcome c param values (k : Py world unit) (rest : bool) w :
  issubclass_BaseKernelFunction (PyType c) = true →
  (∀ w1, (k w1).2 = outcome_of rest) →
  (bind (add_parametrized_kernels (PyType c) param values) (λ _, k) w).2
  = outcome_of (accepts values && rest).
Proof.
  intros Hc Hk. unfold bind. destruct (accepts values) eqn:Hacc.
  - rewrite add_accepted_skipped by done. apply Hk.
  - by rewrite add_rejected.
Qed.

Lemma add_outcome_of c param values w :
  issubclass_BaseKernelFunction (PyType c) = true →
  (add_parametrized_kernels (PyType c) param values w).2
  = outcome_of (accepts values).
Proof.
  intros Hc. destruct (accepts values) eqn:Hacc.
  - by rewrite add_accepted_skipped.
  - by rewrite add_rejected.
Qed.

(** The bucket a successful constructor call builds, in full. *)
Lemma init_content p1 p2 p3 p4 p5 nm norm skip ws :
  accepts p1 = true → accepts p2 = true → accepts p3 = true →
  accepts p4 = true → accepts p5 = true →
  KernelBucket_init p1 p2 p3 p4 p5 nm (PyBool norm) (PyBool skip) ws
  = (ws ++ family_warnings (ClsKernel PolyKernel) "degree" skip norm p1
        ++ family_warnings (ClsKernel GaussianKernel) "sigma" skip norm p2
        ++ family_warnings (ClsKernel LaplacianKernel) "gamma" skip norm p3
        ++ family_warnings (ClsKernel SigmoidKernel) "gamma" skip norm p4
        ++ family_warnings (ClsKernel SigmoidKernel) "offset" skip norm p5,
     Ok (mkBucket
           (linear_km norm
              :: family_entries (ClsKernel PolyKernel) "degree" skip norm p1
              ++ family_entries (ClsKernel GaussianKernel) "sigma" skip norm p2
              ++ family_entries (ClsKernel LaplacianKernel) "gamma" skip norm p3
              ++ family_entries (ClsKernel SigmoidKernel) "gamma" skip norm p4
              ++ family_entries (ClsKernel SigmoidKernel) "offset" skip norm p5)
           nm norm skip None)).
Proof.
  intros H1 H2 H3 H4 H5. unfold KernelBucket_init. cbn [as_bool]. unfold bind.
  rewrite add_accepted by done. cbn [self warnings extend km_set name
    _norm_kernels _skip_input_checks _num_samples].
  rewrite add_accepted by done. cbn [self warnings extend km_set name
    _norm_kernels _skip_input_checks _num_samples].
  rewrite add_accepted by done. cbn [self warnings extend km_set name
    _norm_kernels _skip_input_checks _num_samples].
  rewrite add_accepted by done. cbn [self warnings extend km_set name
    _norm_kernels _skip_input_checks _num_samples].
  rewrite add_accepted by done. cbn [self warnings extend km_set name
    _norm_kernels _skip_input_checks _num_samples].
  rewrite !extend_app. unfold extend.
  cbn [km_set name _norm_kernels _skip_input_checks _num_samples].
  rewrite <- !app_assoc. reflexivity.
Qed.

Lemma init_outcome p1 p2 p3 p4 p5 nm norm skip ws :
  accepts p1 && accepts p2 && accepts p3 && accepts p4 && accepts p5 = false →
  (KernelBucket_init p1 p2 p3 p4 p5 nm (PyBool norm) (PyBool skip) ws).2
  = Raise ValueError.
Proof.
  intros Hrej. unfold KernelBucket_init. cbn [as_bool].
  match goal with |- context [bind ?m ?k ?w0] =>
    assert (Hout : (bind m k w0).2
                   = outcome_of (accepts p1 && (accepts p2 && (accepts p3
                                 && (accepts p4 && accepts p5)))));
    [| destruct (bind m k w0) as [w1 r]; simpl in Hout; subst r ]
  end.
  - repeat (apply add_chain_outcome; [done | intros ?]).
    by apply add_outcome_of.
  - rewrite !andb_assoc, Hrej. done.
Qed.

End bucket_more.

Section bucket_extras.
Context `{KernelLib}.

(** X1. With Boolean flags and every values argument None or a non-empty
    list, the constructor returns the bucket that holds the linear kernel
    first and then, family by family in the order polynomial degree, Gaussian
    sigma, Laplacian gamma, sigmoid gamma, sigmoid offset, the entries of the
    values that did not raise, in the order of the values; it carries the
    given name and flags and no sample size, and the warnings of the values
    that raised are emitted in the same order. *)
Theorem KernelBucket_init_builds
  (p1 p2 p3 p4 p5 : pyobj) (nm : string) (norm skip : bool) (ws : list warning) :
  accepted_values p1 → accepted_values p2 → accepted_values p3 →
  accepted_values p4 → accepted_values p5 →
  KernelBucket_init p1 p2 p3 p4 p5 nm (PyBool norm) (PyBool skip) ws
  = (ws ++ family_warnings (ClsKernel PolyKernel) "degree" skip norm p1
        ++ family_warnings (ClsKernel GaussianKernel) "sigma" skip norm p2
        ++ family_warnings (ClsKernel LaplacianKernel) "gamma" skip norm p3
        ++ family_warnings (ClsKernel SigmoidKernel) "gamma" skip norm p4
        ++ family_warnings (ClsKernel SigmoidKernel) "offset" skip norm p5,
     Ok (mkBucket
           (linear_km norm
              :: family_entries (ClsKernel PolyKernel) "degree" skip norm p1
              ++ family_entries (ClsKernel GaussianKernel) "sigma" skip norm p2
              ++ family_entries (ClsKernel LaplacianKernel) "gamma" skip norm p3
              ++ family_entries (ClsKernel SigmoidKernel) "gamma" skip norm p4
              ++ family_entries (ClsKernel SigmoidKernel) "offset" skip norm p5)
           nm norm skip None)).
Proof.
  intros H1 H2 H3 H4 H5. apply init_content; by apply accepts_spec.
Qed.

(** X2. With Boolean flags, the constructor raises the value error as soon
    as one of the five values arguments is neither None nor a non-empty list
    (a scalar, a string, an empty list): no bucket is returned. *)
Theorem KernelBucket_init_rejects_values
  (p1 p2 p3 p4 p5 : pyobj) (nm : string) (norm skip : bool) (ws : list warning) :
  accepts p1 = false ∨ accepts p2 = false ∨ accepts p3 = false
  ∨ accepts p4 = false ∨ accepts p5 = false →
  (KernelBucket_init p1 p2 p3 p4 p5 nm (PyBool norm) (PyBool skip) ws).2
  = Raise ValueError.
Proof.
  intros Hrej. apply init_outcome.
  destruct Hrej as [-> | [-> | [-> | [-> | ->]]]];
    rewrite ?andb_false_r, ?andb_false_l; done.
Qed.

(** X3. The flags are checked before anything is built: when normalize_kernels
    or skip_input_checks is not a Boolean the constructor raises the type
    error, whatever the values arguments are, and emits no warning. *)
Theorem KernelBucket_init_rejects_flags
  (p1 p2 p3 p4 p5 : pyobj) (nm : string) (normalize_kernels skip_input_checks : pyobj)
  (ws : list warning) :
  as_bool normalize_kernels = None ∨ as_bool skip_input_checks = None →
  KernelBucket_init p1 p2 p3 p4 p5 nm normalize_kernels skip_input_checks ws
  = (ws, Raise TypeError).
Proof.
  intros [Hn | Hs]; unfold KernelBucket_init.
  - by rewrite Hn.
  - rewrite Hs. by destruct (as_bool normalize_kernels).
Qed.

(** X4. Whatever its arguments and whether it returns or raises,
    add_parametrized_kernels keeps every entry of the bucket and every
    warning where it was, adding at the end only, and leaves the name, the two
    flags and the sample size of the bucket unchanged. *)
Theorem add_parametrized_kernels_keeps
  (kernel_func : pyobj) (param : string) (values : pyobj) (w : world) :
  let w' := (add_parametrized_kernels kernel_func param values w).1 in
  km_set (self w) `prefix_of` km_set (self w')
  ∧ warnings w `prefix_of` warnings w'
  ∧ name (self w') = name (self w)
  ∧ _norm_kernels (self w') = _norm_kernels (self w)
  ∧ _skip_input_checks (self w') = _skip_input_checks (self w)
  ∧ _num_samples (self w') = _num_samples (self w).
Proof.
  intros w'. subst w'.
  destruct (add_only_extends kernel_func param values w) as (added & emitted & ->).
  simpl. split; [by exists added|]. split; [by exists emitted|]. done.
Qed.

(** X5. On a valid class add_parametrized_kernels does exactly this: when
    values is None or a non-empty list it returns, having appended the
    entries of the values that were not skipped, in the order of the values,
    and emitted the warnings of the skipped ones in that order; a value is
    skipped when building its kernel function, wrapping it or appending it
    raises, which on a bucket attached to a sample is every value.  For every
    other values argument the call raises the value error and changes
    nothing. *)
Theorem add_parametrized_kernels_on_valid_class
  (c : pyclass) (param : string) (values : pyobj) (w : world) :
  issubclass_BaseKernelFunction (PyType c) = true →
  add_parametrized_kernels (PyType c) param values w
  = if accepts values
    then (mkWorld
            (extend (self w)
               (entry_for c param (_skip_input_checks (self w))
                          (_norm_kernels (self w))
                  <$> List.filter (λ v, negb (value_skipped c param (self w) v))
                                  (values_of values)))
            (warnings w
               ++ (UnableToAdd (PyType c) param
                     <$> List.filter (value_skipped c param (self w))
                                     (values_of values))),
          Ok tt)
    else (w, Raise ValueError).
Proof.
  intros Hc. destruct (accepts values) eqn:Hacc.
  - by apply add_accepted_skipped.
  - by apply add_rejected.
Qed.

(** X6. Every entry that a call on a valid class adds comes from one of the
    values: it is built from the given class with the keyword arguments of
    that value and the bucket's skip_input_checks flag, it is normalized as
    the bucket's flag says, and that value did not raise. *)
Theorem added_entries_provenance
  (c : pyclass) (param : string) (values : pyobj) (w : world)
  (i : nat) (km : kernel_matrix) :
  issubclass_BaseKernelFunction (PyType c) = true →
  km_set (self (add_parametrized_kernels (PyType c) param values w).1) !! i
  = Some km →
  size (self w) ≤ i →
  ∃ val,
    val ∈ values_of values
    ∧ value_raises c param (_skip_input_checks (self w))
                   (_norm_kernels (self w)) val = false
    ∧ km_kernel km
      = KF c (make_param_dict param val (_skip_input_checks (self w)))
    ∧ km_normalized km = _norm_kernels (self w).
Proof.
  intros Hc Hkm Hi. unfold size in Hi. destruct (accepts values) eqn:Hacc.
  - rewrite add_accepted_skipped in Hkm by done. simpl in Hkm.
    rewrite lookup_app_r in Hkm by done.
    rewrite list_lookup_fmap in Hkm.
    apply fmap_Some in Hkm as (val & Hval & ->).
    apply list_elem_of_lookup_2, list_elem_of_In, filter_In in Hval as [Hin Hok].
    exists val. split; [by apply list_elem_of_In|].
    apply negb_true_iff, orb_false_iff in Hok as [Hok _]. done.
  - rewrite add_rejected in Hkm by done. simpl in Hkm.
    apply lookup_lt_Some in Hkm. lia.
Qed.

(** X7. Two successive calls for the same class and parameter with non-empty
    lists of values do what one call with the concatenated list does. *)
Theorem add_parametrized_kernels_app
  (c : pyclass) (param : string) (vals1 vals2 : list pyobj) (w : world) :
  issubclass_BaseKernelFunction (PyType c) = true →
  vals1 ≠ [] → vals2 ≠ [] →
  bind (add_parametrized_kernels (PyType c) param (PyList vals1))
       (λ _, add_parametrized_kernels (PyType c) param (PyList vals2)) w
  = add_parametrized_kernels (PyType c) param (PyList (vals1 ++ vals2)) w.
Proof.
  intros Hc Hne1 Hne2. unfold bind.
  rewrite !add_list_skipped; try done.
  - cbn [self warnings].
    rewrite (filter_ext (λ v, negb (value_skipped c param (extend _ _) v))
                        (λ v, negb (value_skipped c param (self w) v)))
      by (intros v; by rewrite value_skipped_extend).
    rewrite (filter_ext (value_skipped c param (extend _ _))
                        (value_skipped c param (self w)))
      by (intros v; by rewrite value_skipped_extend).
    cbn [extend _skip_input_checks _norm_kernels].
    rewrite extend_app, !List.filter_app, !fmap_app, <- app_assoc. done.
  - destruct vals1; [done | discriminate].
Qed.

End bucket_extras.

(** X8. The keyword arguments of an entry always hold the bucket's flag under
    skip_input_checks; they hold the value under the parameter name unless
    that name is skip_input_checks itself, in which case the value is
    replaced by the flag, so that a sweep over that name builds the same
    entry for every value. *)
Theorem param_dict_lookup
  (c : pyclass) (param : string) (val : pyobj) (skip norm : bool) :
  make_param_dict param val skip !! "skip_input_checks" = Some (PyBool skip)
  ∧ make_param_dict param val skip !! param
    = Some (if decide (param = "skip_input_checks") then PyBool skip else val)
  ∧ ∀ val', entry_for c "skip_input_checks" skip norm val
            = entry_for c "skip_input_checks" skip norm val'.
Proof.
  unfold make_param_dict, entry_for. split; [apply lookup_insert_eq|]. split.
  - rewrite lookup_insert. case_decide as Hp.
    + by rewrite decide_True.
    + rewrite decide_False by done. apply lookup_singleton_eq.
  - intros val'. unfold make_param_dict. by rewrite !insert_singleton_eq.
Qed.

(** * Further properties of the factory *)

Section factory_extras.
Context `{KernelLib} `{Config}.

Lemma init_flags_checked p1 p2 p3 p4 p5 nm normalize_kernels skip_input_checks ws :
  as_bool normalize_kernels = None ∨ as_bool skip_input_checks = None →
  KernelBucket_init p1 p2 p3 p4 p5 nm normalize_kernels skip_input_checks ws
  = (ws, Raise TypeError).
Proof.
  intros [Hn | Hs]; unfold KernelBucket_init.
  - by rewrite Hn.
  - rewrite Hs. by destruct (as_bool normalize_kernels).
Qed.

(** X9. A strategy string whose lower-casing is none of exhaustive, light
    and linear_only makes the factory raise the value error, whatever the
    flags are (they are not checked), without any warning. *)
Theorem make_kernel_bucket_rejects_strategy
  (strategy : string) (nk sk : pyobj) (ws : list warning) :
  known_strategy (lower strategy) = false →
  make_kernel_bucket (StrategyObj (PyStr strategy)) nk sk ws
  = (ws, Raise ValueError).
Proof.
  unfold known_strategy, make_kernel_bucket. intros Hunknown.
  apply orb_false_iff in Hunknown as [Hunknown Hlin].
  apply orb_false_iff in Hunknown as [Hexh Hlight].
  by rewrite Hexh, Hlight, Hlin.
Qed.

(** X10. With one of the three strategy names, in any case, a flag that is
    not a Boolean makes the factory raise the type error of the constructor,
    without any warning. *)
Theorem make_kernel_bucket_rejects_flags
  (strategy : string) (nk sk : pyobj) (ws : list warning) :
  known_strategy (lower strategy) = true →
  as_bool nk = None ∨ as_bool sk = None →
  make_kernel_bucket (StrategyObj (PyStr strategy)) nk sk ws
  = (ws, Raise TypeError).
Proof.
  unfold known_strategy, make_kernel_bucket. intros Hknown Hflag.
  destruct (String.eqb (lower strategy) "exhaustive");
    [by apply init_flags_checked|].
  destruct (String.eqb (lower strategy) "light");
    [by apply init_flags_checked|].
  destruct (String.eqb (lower strategy) "linear_only");
    [by apply init_flags_checked | discriminate].
Qed.

(** X11. Whatever the strategy name and the parameter grids of the
    configuration, a bucket that the factory builds starts with the linear
    kernel, normalized as the flag says; in particular it is never empty. *)
Theorem make_kernel_bucket_starts_linear
  (o : pyobj) (nk sk : pyobj) (ws ws' : list warning) (kb : KernelBucket) :
  make_kernel_bucket (StrategyObj o) nk sk ws = (ws', Ok kb) →
  ∃ norm, nk = PyBool norm
          ∧ km_set kb !! 0 = Some (linear_km norm)
          ∧ 1 ≤ size kb.
Proof.
  unfold make_kernel_bucket. intros Hrun.
  assert (Hfirst : ∃ norm, nk = PyBool norm ∧ km_set kb !! 0 = Some (linear_km norm)).
  { destruct o as [| | | strategy | |]; try discriminate.
    destruct (String.eqb (lower strategy) "exhaustive");
      [by eapply init_first_entry|].
    destruct (String.eqb (lower strategy) "light");
      [by eapply init_first_entry|].
    destruct (String.eqb (lower strategy) "linear_only");
      [by eapply init_first_entry | discriminate]. }
  destruct Hfirst as (norm & -> & Hhd). exists norm. split; [done|]. split; [done|].
  apply lookup_lt_Some in Hhd. unfold size. lia.
Qed.

End factory_extras.

(** ** The further bucket and factory properties on concrete calls *)

Lemma KernelBucket_init_builds_witness :
  accepted_values (PyList [PyInt 2; PyInt 0])
  ∧ accepted_values PyNone
  ∧ ∃ ws' kb,
      @KernelBucket_init sample_lib (PyList [PyInt 2; PyInt 0]) PyNone PyNone
        PyNone PyNone "KB" (PyBool true) (PyBool false) []
      = (ws', Ok kb)
      ∧ size kb = 2
      ∧ length ws' = 1.
Proof.
  assert (Hl : accepted_values (PyList [PyInt 2; PyInt 0])).
  { right. eexists. split; [reflexivity | discriminate]. }
  assert (Hn : accepted_values PyNone) by (left; reflexivity).
  split; [exact Hl|]. split; [exact Hn|].
  eexists _, _. split.
  - apply (@KernelBucket_init_builds sample_lib); assumption.
  - split; reflexivity.
Defined.

Lemma KernelBucket_init_rejects_values_witness :
  (accepts PyNone = false ∨ accepts PyNone = false ∨ accepts (PyInt 3) = false
   ∨ accepts PyNone = false ∨ accepts PyNone = false)
  ∧ (@KernelBucket_init sample_lib PyNone PyNone (PyInt 3) PyNone PyNone
       "KB" (PyBool true) (PyBool false) []).2
    = Raise ValueError.
Proof.
  assert (Hrej : accepts PyNone = false ∨ accepts PyNone = false
                 ∨ accepts (PyInt 3) = false
                 ∨ accepts PyNone = false ∨ accepts PyNone = false).
  { right. right. left. reflexivity. }
  split; [exact Hrej|].
  apply (@KernelBucket_init_rejects_values sample_lib). exact Hrej.
Defined.

Lemma KernelBucket_init_rejects_flags_witness :
  (as_bool (PyInt 1) = None ∨ as_bool (PyBool false) = None)
  ∧ @KernelBucket_init sample_lib (PyInt 3) PyNone PyNone PyNone PyNone
      "KB" (PyInt 1) (PyBool false) []
    = ([], Raise TypeError).
Proof.
  split; [left; reflexivity|].
  apply (@KernelBucket_init_rejects_flags sample_lib). left. reflexivity.
Defined.

Lemma add_parametrized_kernels_on_valid_class_witness :
  issubclass_BaseKernelFunction (PyType (ClsKernel GaussianKernel)) = true
  ∧ @add_parametrized_kernels sample_lib (PyType (ClsKernel GaussianKernel))
      "sigma" (PyList []) sample_world
    = (sample_world, Raise ValueError).
Proof.
  split; [reflexivity|].
  exact (@add_parametrized_kernels_on_valid_class sample_lib
           (ClsKernel GaussianKernel) "sigma" (PyList []) sample_world eq_refl).
Defined.

Lemma added_entries_provenance_witness :
  issubclass_BaseKernelFunction (PyType (ClsKernel PolyKernel)) = true
  ∧ 1 ≤ 2
  ∧ ∃ km val,
      km_set (self (@add_parametrized_kernels sample_lib
                      (PyType (ClsKernel PolyKernel)) "degree"
                      (PyList [PyInt 2; PyInt 0; PyInt 3]) sample_world).1) !! 2
      = Some km
      ∧ val ∈ [PyInt 2; PyInt 0; PyInt 3]
      ∧ km_kernel km
        = KF (ClsKernel PolyKernel) (make_param_dict "degree" val false)
      ∧ km_normalized km = true.
Proof.
  split; [reflexivity|]. split; [lia|].
  destruct (@added_entries_provenance sample_lib (ClsKernel PolyKernel) "degree"
              (PyList [PyInt 2; PyInt 0; PyInt 3]) sample_world 2
              (entry_for (ClsKernel PolyKernel) "degree" false true (PyInt 3))
              eq_refl eq_refl)
    as (val & Hin & _ & Hk & Hn).
  { unfold size. simpl. lia. }
  eexists _, val. split; [reflexivity|]. split; [exact Hin|]. split; [exact Hk | exact Hn].
Defined.

Lemma add_parametrized_kernels_app_witness :
  issubclass_BaseKernelFunction (PyType (ClsKernel PolyKernel)) = true
  ∧ [PyInt 2] ≠ [] ∧ [PyInt 0; PyInt 3] ≠ []
  ∧ bind (@add_parametrized_kernels sample_lib (PyType (ClsKernel PolyKernel))
            "degree" (PyList [PyInt 2]))
         (λ _, @add_parametrized_kernels sample_lib (PyType (ClsKernel PolyKernel))
                 "degree" (PyList [PyInt 0; PyInt 3])) sample_world
    = @add_parametrized_kernels sample_lib (PyType (ClsKernel PolyKernel))
        "degree" (PyList [PyInt 2; PyInt 0; PyInt 3]) sample_world.
Proof.
  split; [reflexivity|]. split; [discriminate|]. split; [discriminate|].
  apply (@add_parametrized_kernels_app sample_lib (ClsKernel PolyKernel) "degree"
           [PyInt 2] [PyInt 0; PyInt 3] sample_world);
    [reflexivity | discriminate | discriminate].
Defined.

Lemma make_kernel_bucket_rejects_strategy_witness :
  known_strategy (lower "Heavy") = false
  ∧ @make_kernel_bucket sample_lib sample_config (StrategyObj (PyStr "Heavy"))
      (PyInt 1) PyNone []
    = ([], Raise ValueError).
Proof.
  split; [reflexivity|].
  apply (@make_kernel_bucket_rejects_strategy sample_lib sample_config). reflexivity.
Defined.

Lemma make_kernel_bucket_rejects_flags_witness :
  known_strategy (lower "LIGHT") = true
  ∧ (as_bool (PyBool true) = None ∨ as_bool PyNone = None)
  ∧ @make_kernel_bucket sample_lib sample_config (StrategyObj (PyStr "LIGHT"))
      (PyBool true) PyNone []
    = ([], Raise TypeError).
Proof.
  split; [reflexivity|]. split; [right; reflexivity|].
  apply (@make_kernel_bucket_rejects_flags sample_lib sample_config);
    [reflexivity | right; reflexivity].
Defined.

Lemma make_kernel_bucket_starts_linear_witness :
  ∃ ws' kb,
    @make_kernel_bucket sample_lib sample_config (StrategyObj (PyStr "Exhaustive"))
      (PyBool false) (PyBool false) [] = (ws', Ok kb)
    ∧ km_set kb !! 0 = Some (linear_km false)
    ∧ 1 ≤ size kb.
Proof.
  destruct (@make_kernel_bucket sample_lib sample_config
              (StrategyObj (PyStr "Exhaustive")) (PyBool false) (PyBool false) [])
    as [ws' [kb | e]] eqn:Hrun.
  - exists ws', kb. split; [reflexivity|].
    destruct (@make_kernel_bucket_starts_linear sample_lib sample_config
                (PyStr "Exhaustive") (PyBool false) (PyBool false) [] ws' kb Hrun)
      as (norm & Hnorm & Hhd & Hsize).
    injection Hnorm as <-. split; [exact Hhd | exact Hsize].
  - vm_compute in Hrun. discriminate Hrun.
Defined.

(** * Further properties of arrays and of the similarity engine *)

Section array_more.
Context {A : Type}.

(** The nested-list form of a square array, from its cells. *)
Lemma tolist_square (a : ndarray A) (n : nat) (g : nat → nat → A) :
  square a n →
  (∀ i j, i < n → j < n → get_cell a i j = Ok (g i j)) →
  tolist a = (λ i, g i <$> seq 0 n) <$> seq 0 n.
Proof.
  intros Hsq Hg. pose proof Hsq as (Hsh & _ & _).
  unfold tolist. rewrite Hsh. cbn [fst snd].
  apply list_fmap_ext. intros k i Hi. apply lookup_seq in Hi as [-> Hk].
  cbn [Nat.add].
  rewrite <- bind_singleton_fmap. apply Forall_bind_ext, Forall_seq.
  intros j Hj. specialize (Hg k j ltac:(lia) ltac:(lia)).
  unfold get_cell in Hg. rewrite (square_in_shape a n) in Hg by done.
  rewrite !bool_decide_eq_true_2 in Hg by lia. cbn [andb] in Hg.
  destruct (buffer a !! offset a k j); [|discriminate].
  by injection Hg as ->.
Qed.

(** Reading the first k cells of a buffer one by one. *)
Lemma row_take (l : list A) : ∀ k,
  k ≤ length l → (j ← seq 0 k; option_list (l !! j)) = take k l.
Proof.
  induction l as [|x l IH]; intros [|k] Hk; simpl in Hk; try done; try lia.
  cbn [seq take]. rewrite bind_cons, <- fmap_S_seq, list_fmap_bind.
  cbn [lookup list_lookup option_list app]. f_equal.
  apply IH. lia.
Qed.

(** Reading a buffer of r rows of c cells row by row gives the buffer. *)
Lemma rows_concat (c : nat) : ∀ r (buf : list A),
  length buf = r * c →
  (i ← seq 0 r; j ← seq 0 c; option_list (buf !! (i * c + j * 1))) = buf.
Proof.
  induction r as [|r IH]; intros buf Hlen.
  - by rewrite (nil_length_inv buf).
  - cbn [seq]. rewrite bind_cons, <- fmap_S_seq, list_fmap_bind.
    transitivity (take c buf ++ drop c buf); [|apply take_drop]. f_equal.
    + rewrite <- row_take by lia. apply list_bind_ext; [|done].
      intros j. do 2 f_equal. lia.
    + etrans; [|apply (IH (drop c buf)); rewrite length_drop; lia].
      apply list_bind_ext; [|done]. intros i.
      apply list_bind_ext; [|done]. intros j. cbn [compose].
      rewrite lookup_drop. do 2 f_equal. lia.
Qed.

(** Flattening a contiguous array gives its buffer. *)
Lemma ravel_contiguous (a : ndarray A) : contiguous a → ravel a = buffer a.
Proof.
  intros [Hst Hlen]. unfold ravel, offset. rewrite Hst. cbn [fst snd].
  by apply rows_concat.
Qed.

End array_more.

Section similarity_extras.
Context {V : Type} `{Numerics V}.

(** X12. With a known metric the result, read as nested lists, is fully
    determined: row i, column j holds the metric of the entry with the
    smaller index and the entry with the larger index, in that order, also
    below the diagonal; no cell keeps the not-a-number fill value of the
    allocation. *)
Theorem pairwise_similarity_matrix
  (kb : KernelBucket) (metric : string) (metric_func : ndarray V → ndarray V → V)
  (log : call_log) :
  (metric = "corr" ∧ metric_func = correlation_km)
  ∨ (metric = "align" ∧ metric_func = align_metric) →
  ∃ log' pm,
    pairwise_similarity kb metric log = (log', Ok pm)
    ∧ tolist pm
      = (λ i, (λ j, metric_func (full_at kb (i `min` j)) (full_at kb (i `max` j)))
                <$> seq 0 (size kb))
          <$> seq 0 (size kb).
Proof.
  intros Hname.
  assert (Hm : metric_of metric = Some metric_func).
  { by destruct Hname as [[-> ->] | [-> ->]]. }
  destruct (pairwise_run kb metric metric_func log Hm) as (pm & Hrun & Hsq & Hcell).
  eexists _, pm. split; [exact Hrun|].
  apply tolist_square; [done|]. intros i j Hi Hj. rewrite Hcell by done.
  case_bool_decide.
  - by rewrite Nat.min_l, Nat.max_r.
  - by rewrite Nat.min_r, Nat.max_l by lia.
Qed.

(** X13. On a collection without entries and with a known metric the call
    returns the empty 0-by-0 array and evaluates no metric. *)
Theorem pairwise_similarity_empty
  (kb : KernelBucket) (metric : string) (log : call_log) :
  km_set kb = [] →
  metric = "corr" ∨ metric = "align" →
  pairwise_similarity kb metric log = (log, Ok (mkArray (0, 0) (0, 1) [])).
Proof.
  intros Hempty Hname.
  assert (Hm : ∃ estimator, metric_of metric = Some estimator).
  { destruct Hname as [-> | ->]; eexists; reflexivity. }
  destruct Hm as [estimator Hm].
  destruct (pairwise_run kb metric estimator log Hm) as (pm & Hrun & Hsq & _).
  unfold size in *. rewrite Hempty in *. cbn [length] in *.
  rewrite Hrun. cbn [upper_pairs range seq mbind list_bind fmap list_fmap].
  rewrite app_nil_r. destruct Hsq as (Hsh & Hst & Hlen).
  destruct pm as [shp str buf]. simpl in *. subst shp str.
  by rewrite (nil_length_inv buf).
Qed.

(** X14. For contiguous arrays correlation_km is the first component of
    pearsonr on the two buffers: the shapes of the two matrices are not
    compared. *)
Theorem correlation_km_contiguous (k1 k2 : ndarray V) :
  contiguous k1 → contiguous k2 →
  correlation_km k1 k2 = (pearsonr (buffer k1) (buffer k2)).1.
Proof.
  intros Hk1 Hk2. unfold correlation_km.
  rewrite !ravel_contiguous by done. by destruct (pearsonr _ _).
Qed.

End similarity_extras.

(** * Further properties of the ideal kernel *)

Section ideal_extras.
Context {T : Type} `{Dtype T}.

(** One cell of the ideal kernel. *)
Lemma ideal_kernel_cell (targets : list T) i j ti tj :
  targets !! i = Some ti → targets !! j = Some tj →
  ∃ K, ideal_kernel targets = Ok K
       ∧ get_cell K i j = Ok (dadd dzero (dmul ti tj)).
Proof.
  intros Hi Hj. eexists. split; [apply ideal_kernel_run|].
  unfold get_cell, in_shape, offset. cbn [shape strides buffer fst snd].
  rewrite !bool_decide_eq_true_2 by (by eapply lookup_lt_Some). cbn [andb].
  replace (j * 1) with j by lia.
  by rewrite (grid_lookup (λ a b, dadd dzero (dmul a b)) targets targets i j ti tj).
Qed.

(** X16. When the multiplication of the element type commutes, the ideal
    kernel is symmetric: the cells (i, j) and (j, i) hold the same value for
    all indices below the number of targets. *)
Theorem ideal_kernel_symmetric (targets : list T) (i j : nat) :
  (∀ x y : T, dmul x y = dmul y x) →
  i < length targets → j < length targets →
  ∃ K v, ideal_kernel targets = Ok K
         ∧ get_cell K i j = Ok v
         ∧ get_cell K j i = Ok v.
Proof.
  intros Hcomm Hi Hj.
  destruct (lookup_lt_is_Some_2 targets i Hi) as [ti Hti].
  destruct (lookup_lt_is_Some_2 targets j Hj) as [tj Htj].
  destruct (ideal_kernel_cell targets i j ti tj Hti Htj) as (K & HK & Hij).
  destruct (ideal_kernel_cell targets j i tj ti Htj Hti) as (K' & HK' & Hji).
  rewrite HK in HK'. injection HK' as <-.
  exists K, (dadd dzero (dmul ti tj)). split; [done|]. split; [done|].
  by rewrite Hji, (Hcomm tj ti).
Qed.

End ideal_extras.

(** X17. For integer class labels that are all 1 or -1, the cell (i, j) of
    the ideal kernel is 1 when the targets i and j are equal and -1 when they
    differ; in particular the diagonal is all ones. *)
Theorem ideal_kernel_binary_labels (targets : list Z) (i j : nat) (ti tj : Z) :
  binary_labels targets →
  targets !! i = Some ti → targets !! j = Some tj →
  ∃ K, @ideal_kernel Z Z_dtype targets = Ok K
       ∧ get_cell K i j = Ok (if decide (ti = tj) then 1 else -1)%Z.
Proof.
  intros Hlabels Hi Hj.
  destruct (@ideal_kernel_cell Z Z_dtype targets i j ti tj Hi Hj) as (K & HK & Hcell).
  exists K. split; [done|]. rewrite Hcell. f_equal. cbn [dadd dzero dmul Z_dtype].
  destruct (Hlabels ti) as [-> | ->]; [by eapply list_elem_of_lookup_2|..];
    (destruct (Hlabels tj) as [-> | ->]; [by eapply list_elem_of_lookup_2|..]);
    by case_decide.
Qed.

(** ** The further similarity properties on concrete inputs *)

Lemma pairwise_similarity_matrix_witness :
  (("align" = "corr"
    ∧ @align_metric Z sample_numerics = @correlation_km Z sample_numerics)
   ∨ ("align" = "align"
      ∧ @align_metric Z sample_numerics = @align_metric Z sample_numerics))
  ∧ ∃ log' pm,
      @pairwise_similarity Z sample_numerics sample_bucket3 "align" [] = (log', Ok pm)
      ∧ tolist pm = [[0; 2; 1]; [2; 4; 3]; [1; 3; 2]]%Z.
Proof.
  assert (Hname : ("align" = "corr"
                   ∧ @align_metric Z sample_numerics
                     = @correlation_km Z sample_numerics)
                  ∨ ("align" = "align"
                     ∧ @align_metric Z sample_numerics
                       = @align_metric Z sample_numerics)).
  { right. split; reflexivity. }
  split; [exact Hname|].
  destruct (@pairwise_similarity_matrix Z sample_numerics sample_bucket3 "align"
              (@align_metric Z sample_numerics) [] Hname)
    as (log' & pm & Hrun & Hlist).
  exists log', pm. split; [exact Hrun|]. rewrite Hlist. vm_compute. reflexivity.
Defined.

Lemma pairwise_similarity_empty_witness :
  km_set (mkBucket [] "Empty" true false None) = []
  ∧ ("corr" = "corr" ∨ "corr" = "align")
  ∧ @pairwise_similarity Z sample_numerics (mkBucket [] "Empty" true false None)
      "corr" []
    = ([], Ok (mkArray (0, 0) (0, 1) [])).
Proof.
  split; [reflexivity|]. split; [left; reflexivity|].
  apply (@pairwise_similarity_empty Z sample_numerics); [reflexivity | left; reflexivity].
Defined.

Lemma correlation_km_contiguous_witness :
  contiguous (mkArray (2, 3) (3, 1) [1; 2; 3; 4; 5; 6]%Z)
  ∧ contiguous (mkArray (3, 2) (2, 1) [6; 5; 4; 3; 2; 1]%Z)
  ∧ @correlation_km Z sample_numerics
      (mkArray (2, 3) (3, 1) [1; 2; 3; 4; 5; 6]%Z)
      (mkArray (3, 2) (2, 1) [6; 5; 4; 3; 2; 1]%Z)
    = 6%Z.
Proof.
  assert (H1 : contiguous (mkArray (2, 3) (3, 1) [1; 2; 3; 4; 5; 6]%Z))
    by (split; reflexivity).
  assert (H2 : contiguous (mkArray (3, 2) (2, 1) [6; 5; 4; 3; 2; 1]%Z))
    by (split; reflexivity).
  split; [exact H1|]. split; [exact H2|].
  rewrite (@correlation_km_contiguous Z sample_numerics _ _ H1 H2). reflexivity.
Defined.

Lemma ideal_kernel_symmetric_witness :
  (∀ x y : Z, (x * y)%Z = (y * x)%Z)
  ∧ 0 < length [1; -1; 1]%Z ∧ 1 < length [1; -1; 1]%Z
  ∧ ∃ K v, @ideal_kernel Z Z_dtype [1; -1; 1]%Z = Ok K
           ∧ get_cell K 0 1 = Ok v
           ∧ get_cell K 1 0 = Ok v.
Proof.
  split; [exact Z.mul_comm|]. split; [simpl; lia|]. split; [simpl; lia|].
  apply (@ideal_kernel_symmetric Z Z_dtype [1; -1; 1]%Z 0 1);
    [exact Z.mul_comm | simpl; lia | simpl; lia].
Defined.

Lemma ideal_kernel_binary_labels_witness :
  binary_labels [1; -1; 1]%Z
  ∧ ∃ K, @ideal_kernel Z Z_dtype [1; -1; 1]%Z = Ok K
         ∧ get_cell K 0 2 = Ok 1%Z
         ∧ get_cell K 0 1 = Ok (-1)%Z.
Proof.
  assert (Hlabels : binary_labels [1; -1; 1]%Z).
  { intros t Ht. apply list_elem_of_In in Ht. simpl in Ht.
    destruct Ht as [<- | [<- | [<- | []]]]; [by left | by right | by left]. }
  split; [exact Hlabels|].
  destruct (ideal_kernel_binary_labels [1; -1; 1]%Z 0 2 1 1 Hlabels eq_refl eq_refl)
    as (K & HK & H02).
  destruct (ideal_kernel_binary_labels [1; -1; 1]%Z 0 1 1 (-1) Hlabels eq_refl eq_refl)
    as (K' & HK' & H01).
  rewrite HK in HK'. injection HK' as <-.
  exists K. split; [exact HK|]. split; [exact H02 | exact H01].
Defined.

(** * Invariants of constructed buckets, repeated runs, growing targets *)

Section bucket_entries.
Context `{KernelLib}.

Lemma family_entry_inv c param skip norm values km :
  km ∈ family_entries c param skip norm values →
  km_normalized km = norm
  ∧ kf_class (km_kernel km) = c
  ∧ kf_kwargs (km_kernel km) !! "skip_input_checks" = Some (PyBool skip).
Proof.
  unfold family_entries. intros Hkm.
  apply list_elem_of_fmap in Hkm as (val & -> & _).
  unfold entry_for, make_param_dict. simpl. split; [done|]. split; [done|].
  apply lookup_insert_eq.
Qed.

(** X18. Every entry of a bucket that the constructor returns is normalized
    as the normalize_kernels flag says; the linear kernel is the only entry
    built without keyword arguments, every other entry is of another class
    and carries the skip_input_checks flag of the bucket. *)
Theorem KernelBucket_init_entries
  (p1 p2 p3 p4 p5 : pyobj) (nm : string) (nk sk : pyobj) (ws ws' : list warning)
  (kb : KernelBucket) (km : kernel_matrix) :
  KernelBucket_init p1 p2 p3 p4 p5 nm nk sk ws = (ws', Ok kb) →
  km ∈ km_set kb →
  ∃ norm skip,
    nk = PyBool norm ∧ sk = PyBool skip
    ∧ km_normalized km = norm
    ∧ (km = linear_km norm
       ∨ (kf_class (km_kernel km) ≠ ClsKernel LinearKernel
          ∧ kf_kwargs (km_kernel km) !! "skip_input_checks" = Some (PyBool skip))).
Proof.
  intros Hinit Hkm.
  destruct (as_bool nk) as [norm|] eqn:Hnk;
    [|rewrite init_flags_checked in Hinit by (by left); discriminate].
  destruct (as_bool sk) as [skip|] eqn:Hsk;
    [|rewrite init_flags_checked in Hinit by (by right); discriminate].
  destruct nk; try discriminate. destruct sk; try discriminate.
  injection Hnk as ->. injection Hsk as ->.
  destruct (accepts p1 && accepts p2 && accepts p3 && accepts p4 && accepts p5)
    eqn:Hacc.
  - repeat (apply andb_true_iff in Hacc as [Hacc ?]).
    rewrite init_content in Hinit by done. injection Hinit as <- <-.
    exists norm, skip. split; [done|]. split; [done|]. cbn [km_set] in Hkm.
    apply elem_of_cons in Hkm as [-> | Hkm]; [split; [done | by left]|].
    repeat (apply elem_of_app in Hkm as [Hkm | Hkm]);
      apply family_entry_inv in Hkm as (Hn & Hc & Hk);
      (split; [done|]); right; (split; [by rewrite Hc | done]).
  - pose proof (init_outcome p1 p2 p3 p4 p5 nm norm skip ws Hacc) as Hout.
    rewrite Hinit in Hout. discriminate.
Qed.

End bucket_entries.

Lemma lower_ascii_idempotent (c : ascii) : lower_ascii (lower_ascii c) = lower_ascii c.
Proof. destruct c as [[] [] [] [] [] [] [] []]; reflexivity. Qed.

Lemma lower_idempotent (s : string) : lower (lower s) = lower s.
Proof.
  induction s as [|c s IH]; [done|]. simpl. by rewrite lower_ascii_idempotent, IH.
Qed.

(** X19. The factory matches strategy names without regard to case: a name
    and its lower-cased form give the same result, for every flag and
    configuration. *)
Theorem make_kernel_bucket_case_insensitive `{KernelLib} `{Config}
  (strategy : string) (nk sk : pyobj) (ws : list warning) :
  make_kernel_bucket (StrategyObj (PyStr (lower strategy))) nk sk ws
  = make_kernel_bucket (StrategyObj (PyStr strategy)) nk sk ws.
Proof. unfold make_kernel_bucket. by rewrite lower_idempotent. Qed.

(** X20. Nothing is cached between calls: a second call on the same bucket
    with the same metric evaluates the metric on the same n(n+1)/2 pairs
    again and returns a matrix with the same content. *)
Theorem pairwise_similarity_recomputes {V : Type} `{Numerics V}
  (kb : KernelBucket) (metric : string) (log : call_log) :
  metric = "corr" ∨ metric = "align" →
  ∃ calls pm1 pm2,
    pairwise_similarity kb metric log = (log ++ calls, Ok pm1)
    ∧ pairwise_similarity kb metric (log ++ calls) = (log ++ calls ++ calls, Ok pm2)
    ∧ tolist pm1 = tolist pm2
    ∧ length calls = size kb * (size kb + 1) / 2.
Proof.
  intros Hname.
  assert (Hm : ∃ estimator, metric_of metric = Some estimator).
  { destruct Hname as [-> | ->]; eexists; reflexivity. }
  destruct Hm as [estimator Hm].
  destruct (pairwise_run kb metric estimator log Hm) as (pm1 & Hrun1 & Hsq1 & Hcell1).
  destruct (pairwise_run kb metric estimator
              (log ++ ((λ p, (full_at kb p.1, full_at kb p.2))
                         <$> upper_pairs (size kb))) Hm)
    as (pm2 & Hrun2 & Hsq2 & Hcell2).
  eexists _, pm1, pm2. split; [exact Hrun1|]. split; [|split].
  - rewrite Hrun2. by rewrite <- app_assoc.
  - rewrite (tolist_square pm1 _ _ Hsq1 Hcell1).
    by rewrite (tolist_square pm2 _ _ Hsq2 Hcell2).
  - by rewrite length_fmap, length_upper_pairs.
Qed.

(** X21. When the appended targets are of the element type of the first
    ones, so that the array of the longer sequence has the same element type,
    appending them leaves the cells of the ideal kernel of the first targets
    as they are: the ideal kernel of the longer sequence holds that of the
    prefix in its upper left corner. *)
Theorem ideal_kernel_prefix {T : Type} `{Dtype T}
  (targets more : list T) (i j : nat) :
  i < length targets → j < length targets →
  ∃ K K' v,
    ideal_kernel targets = Ok K
    ∧ ideal_kernel (targets ++ more) = Ok K'
    ∧ get_cell K i j = Ok v
    ∧ get_cell K' i j = Ok v.
Proof.
  intros Hi Hj.
  destruct (lookup_lt_is_Some_2 targets i Hi) as [ti Hti].
  destruct (lookup_lt_is_Some_2 targets j Hj) as [tj Htj].
  destruct (ideal_kernel_cell targets i j ti tj Hti Htj) as (K & HK & Hcell).
  destruct (ideal_kernel_cell (targets ++ more) i j ti tj) as (K' & HK' & Hcell').
  { by rewrite lookup_app_l. }
  { by rewrite lookup_app_l. }
  by exists K, K', (dadd dzero (dmul ti tj)).
Qed.

(** ** These properties on concrete inputs *)

Lemma KernelBucket_init_entries_witness :
  ∃ ws' kb,
    @KernelBucket_init sample_lib (PyList [PyInt 2; PyInt 0]) PyNone PyNone
      (PyList [PyInt 1]) PyNone "KB" (PyBool true) (PyBool false) []
    = (ws', Ok kb)
    ∧ ∀ km, km ∈ km_set kb → km_normalized km = true.
Proof.
  destruct (@KernelBucket_init sample_lib (PyList [PyInt 2; PyInt 0]) PyNone PyNone
              (PyList [PyInt 1]) PyNone "KB" (PyBool true) (PyBool false) [])
    as [ws' [kb | e]] eqn:Hinit; [|vm_compute in Hinit; discriminate Hinit].
  exists ws', kb. split; [reflexivity|]. intros km Hkm.
  destruct (@KernelBucket_init_entries sample_lib _ _ _ _ _ _ _ _ _ _ _ km Hinit Hkm)
    as (norm & skip & Hn & _ & Hnorm & _).
  injection Hn as <-. exact Hnorm.
Defined.

Lemma pairwise_similarity_recomputes_witness :
  ("corr" = "corr" ∨ "corr" = "align")
  ∧ ∃ calls pm1 pm2,
      @pairwise_similarity Z sample_numerics sample_bucket3 "corr" []
      = ([] ++ calls, Ok pm1)
      ∧ @pairwise_similarity Z sample_numerics sample_bucket3 "corr" ([] ++ calls)
        = ([] ++ calls ++ calls, Ok pm2)
      ∧ tolist pm1 = tolist pm2
      ∧ length calls = 6.
Proof.
  split; [by left|].
  apply (@pairwise_similarity_recomputes Z sample_numerics sample_bucket3 "corr" []).
  by left.
Defined.

Lemma ideal_kernel_prefix_witness :
  0 < length [1; -1]%Z ∧ 1 < length [1; -1]%Z
  ∧ ∃ K K' v,
      @ideal_kernel Z Z_dtype [1; -1]%Z = Ok K
      ∧ @ideal_kernel Z Z_dtype ([1; -1] ++ [1])%Z = Ok K'
      ∧ get_cell K 0 1 = Ok v
      ∧ get_cell K' 0 1 = Ok v.
Proof.
  split; [simpl; lia|]. split; [simpl; lia|].
  apply (@ideal_kernel_prefix Z Z_dtype [1; -1]%Z [1]%Z 0 1); simpl; lia.
Defined.

(** * The claims as first stated, refuted *)

(** C1 as first stated counts only the values whose construction or wrapping
    raises.  On a bucket attached to a sample, and with constructors that
    accept the two values, nothing is appended and two warnings are emitted,
    where that count gives two entries and no warning. *)
Lemma add_parametrized_kernels_appends_counterexample :
  ¬ (∀ (c : pyclass) (param : string) (vals : list pyobj) (w : world),
       issubclass_BaseKernelFunction (PyType c) = true →
       let w' := (@add_parametrized_kernels sample_lib (PyType c) param
                    (PyList vals) w).1 in
       let raising :=
         List.filter (@value_raises sample_lib c param (_skip_input_checks (self w))
                                    (_norm_kernels (self w))) vals in
       length (km_set (self w'))
       = length (km_set (self w)) + (length vals - length raising)
       ∧ length (warnings w') = length (warnings w) + length raising).
Proof.
  intros Hclaim.
  destruct (Hclaim (ClsKernel GaussianKernel) "sigma" [PyInt 2; PyInt 3]
              attached_world eq_refl) as [Hentries _].
  vm_compute in Hentries. discriminate Hentries.
Qed.

(** C2 as first stated compares the two cells with ==.  On a bucket whose
    kernel matrix is constant the correlation is not a number, and the
    diagonal cell does not compare equal to itself. *)
Lemma pairwise_similarity_symmetric_counterexample :
  ¬ (∀ (kb : KernelBucket) (metric : string),
       metric = "corr" ∨ metric = "align" →
       ∀ pm, (@pairwise_similarity PrimFloat.float binary64_numerics kb metric []).2
             = Ok pm →
       ∀ i j a b, i < size kb → j < size kb →
         get_cell pm i j = Ok a → get_cell pm j i = Ok b →
         PrimFloat.eqb a b = true).
Proof.
  intros Hclaim.
  specialize (Hclaim sample_bucket "corr" (or_introl eq_refl)
                (mkArray (1, 1) (1, 1) [PrimFloat.nan])).
  assert (Hrun : (@pairwise_similarity PrimFloat.float binary64_numerics
                    sample_bucket "corr" []).2
                 = Ok (mkArray (1, 1) (1, 1) [PrimFloat.nan])).
  { vm_compute. reflexivity. }
  specialize (Hclaim Hrun 0 0 PrimFloat.nan PrimFloat.nan).
  assert (Hsize : 0 < size sample_bucket) by (unfold size; simpl; lia).
  specialize (Hclaim Hsize Hsize eq_refl eq_refl).
  vm_compute in Hclaim. discriminate Hclaim.
Qed.

(** The run behind the first refutation: on the attached bucket both values
    are skipped, each with its warning, and the call returns. *)
Example add_on_attached_bucket :
  @add_parametrized_kernels sample_lib (PyType (ClsKernel GaussianKernel)) "sigma"
    (PyList [PyInt 2; PyInt 3]) attached_world
  = (mkWorld (self attached_world)
       [UnableToAdd (PyType (ClsKernel GaussianKernel)) "sigma" (PyInt 2);
        UnableToAdd (PyType (ClsKernel GaussianKernel)) "sigma" (PyInt 3)],
     Ok tt).
Proof. vm_compute. reflexivity. Qed.
